(** * Cloudflare-MCP worker: the request dispatcher of [src/worker.js]

    A shallow embedding of the worker's [fetch] handler, its JSON-RPC / MCP
    handler [handleJsonRpc], the search adapter [searchVectors] and the three
    response helpers, followed by the properties of the dispatcher.

    Layout:
    - [JS]: the fragment of the JavaScript runtime the worker relies on
      (values, truthiness, [??], [||], property reads, template-literal
      [ToString], [String.prototype.endsWith], [JSON.stringify]);
    - [Worker]: the bindings of [env], the monad of the handler (collaborator
      calls are recorded, exceptions are results) and the code of worker.js;
    - the theorems. *)

From Stdlib Require Import String Ascii List ZArith Bool DecimalString.
Import ListNotations.
Local Open Scope string_scope.
Local Open Scope Z_scope.

(* ===================================================================== *)
(** ** The JavaScript runtime fragment *)
(* ===================================================================== *)

Module JS.

(** A Number, kept as the decimal it denotes: [Dec m e] is [m * 10^e].
    ECMAScript's Number::toString is specified on exactly this decimal data
    (digits and decimal exponent), so printing is definable; the worker itself
    never computes with numbers, it only tests them for truthiness, passes
    them through and prints them. *)
Inductive number : Type :=
| NaN
| Infinity (negative : bool)
| NegZero
| Dec (m e : Z).

Set Warnings "-register-all".

(** JavaScript values as they reach the worker: what [JSON.parse] yields
    ([request.json()], the collaborators' answers), plus [undefined].
    An object is the list of its own properties in enumeration order, the
    order [JSON.stringify] writes them in. *)
Inductive value : Type :=
| VUndefined
| VNull
| VBool (b : bool)
| VNum (n : number)
| VStr (s : string)
| VArr (elems : list value)
| VObj (props : list (string * value)).

(** An integer literal of the source, such as [200] or [-32603]. *)
Definition int (z : Z) : value := VNum (Dec z 0).

(** The empty object literal [{}]. *)
Definition empty_object : value := VObj [].

(** ToBoolean. *)
Definition number_truthy (n : number) : bool :=
  match n with
  | NaN | NegZero => false
  | Infinity _ => true
  | Dec m _ => negb (m =? 0)
  end.

Definition truthy (v : value) : bool :=
  match v with
  | VUndefined | VNull => false
  | VBool b => b
  | VNum n => number_truthy n
  | VStr s => negb (String.eqb s "")
  | VArr _ | VObj _ => true
  end.

(** [a ?? b]. *)
Definition nullish (v : value) : bool :=
  match v with VUndefined | VNull => true | _ => false end.

Definition coalesce (a b : value) : value := if nullish a then b else a.

(** [a || b]. *)
Definition or_else (a b : value) : value := if truthy a then a else b.

(** [v === "lit"] against a string literal. *)
Definition is_string (v : value) (lit : string) : bool :=
  match v with VStr s => String.eqb s lit | _ => false end.

(** Lookup of an own property. *)
Fixpoint assoc (k : string) (props : list (string * value)) : value :=
  match props with
  | [] => VUndefined
  | (k', v) :: rest => if String.eqb k k' then v else assoc k rest
  end.

(** [v.k] on a receiver that is neither [null] nor [undefined], for the
    property names the worker reads (none of them is an index, [length] or a
    prototype method): an object answers from its own properties, every other
    receiver answers [undefined]. Nullish receivers go through [?.] below or
    through [Worker.member], which throws. *)
Definition prop (v : value) (k : string) : value :=
  match v with
  | VObj props => assoc k props
  | _ => VUndefined
  end.

(** [v?.k]. *)
Definition opt_prop (v : value) (k : string) : value :=
  if nullish v then VUndefined else prop v k.

(** [v?.[0]]: the first element of an array, the property ["0"] of an
    object, the first character of a string. *)
Definition opt_index0 (v : value) : value :=
  match v with
  | VArr (x :: _) => x
  | VObj props => assoc "0" props
  | VStr (String c _) => VStr (String c EmptyString)
  | _ => VUndefined
  end.

(** [Array.isArray]. *)
Definition isArray (v : value) : bool :=
  match v with VArr _ => true | _ => false end.

(** [s.endsWith(suffix)]: some tail of [s] is [suffix]. *)
Fixpoint endsWith (s suffix : string) : bool :=
  if String.eqb s suffix then true
  else match s with
       | EmptyString => false
       | String _ s' => endsWith s' suffix
       end.

(** *** Number::toString *)

Fixpoint strip_zeros (rev_digits : list ascii) : list ascii * Z :=
  match rev_digits with
  | "0"%char :: rest => let (d, z) := strip_zeros rest in (d, z + 1)
  | _ => (rev_digits, 0)
  end.

Fixpoint zeros (n : nat) : string :=
  match n with O => "" | S n' => String "0" (zeros n') end.

Definition natural_toString (z : Z) : string :=
  NilZero.string_of_uint (N.to_uint (Z.to_N z)).

(** The digits [s] (no trailing zero), their count [k] and the exponent [n]
    with value [0.s * 10^n], then the four layouts of the standard. *)
Definition positive_toString (m e : Z) : string :=
  let (rd, z) := strip_zeros (rev (list_ascii_of_string (natural_toString m))) in
  let digits := string_of_list_ascii (rev rd) in
  let k := Z.of_nat (String.length digits) in
  let n := e + z + k in
  if (k <=? n) && (n <=? 21) then
    digits ++ zeros (Z.to_nat (n - k))
  else if (0 <? n) && (n <=? 21) then
    substring 0 (Z.to_nat n) digits ++ "." ++
    substring (Z.to_nat n) (Z.to_nat (k - n)) digits
  else if (-6 <? n) && (n <=? 0) then
    "0." ++ zeros (Z.to_nat (- n)) ++ digits
  else
    let exponent := (if n - 1 <? 0 then "-" else "+") ++ natural_toString (Z.abs (n - 1)) in
    if k =? 1 then digits ++ "e" ++ exponent
    else substring 0 1 digits ++ "." ++
         substring 1 (Z.to_nat (k - 1)) digits ++ "e" ++ exponent.

Definition Number_toString (x : number) : string :=
  match x with
  | NaN => "NaN"
  | Infinity false => "Infinity"
  | Infinity true => "-Infinity"
  | NegZero => "0"
  | Dec m e =>
      if m =? 0 then "0"
      else if m <? 0 then "-" ++ positive_toString (- m) e
      else positive_toString m e
  end.

(** *** ToString, as a template literal applies it *)

Definition join (sep : string) (parts : list string) : string :=
  String.concat sep parts.

(** Whether an object has an own property [k]. *)
Definition has_own (k : string) (props : list (string * value)) : bool :=
  existsb (fun kv => String.eqb (fst kv) k) props.

(** ToString on a value that came out of [JSON.parse]; [None] is the
    TypeError "Cannot convert object to primitive value". An object is
    converted by its [toString] method: the inherited one answers
    "[object Object]", but an own [toString] member hides it, and a member
    read from JSON is no function, so the conversion fails ([valueOf] answers
    the object itself and does not help). An array is converted by [join],
    which converts its elements, [null] and [undefined] to the empty text. *)
Fixpoint ToString (v : value) : option string :=
  match v with
  | VUndefined => Some "undefined"
  | VNull => Some "null"
  | VBool true => Some "true"
  | VBool false => Some "false"
  | VNum n => Some (Number_toString n)
  | VStr s => Some s
  | VArr elems =>
      option_map (join ",")
        ((fix strings (l : list value) : option (list string) :=
            match l with
            | [] => Some []
            | x :: rest =>
                match (if nullish x then Some "" else ToString x), strings rest with
                | Some t, Some ts => Some (t :: ts)
                | _, _ => None
                end
            end) elems)
  | VObj props =>
      if has_own "toString" props then None else Some "[object Object]"
  end.

(** *** JSON.stringify *)

Definition hex_digit (n : N) : ascii :=
  match n with
  | 0%N => "0" | 1%N => "1" | 2%N => "2" | 3%N => "3" | 4%N => "4"
  | 5%N => "5" | 6%N => "6" | 7%N => "7" | 8%N => "8" | 9%N => "9"
  | 10%N => "a" | 11%N => "b" | 12%N => "c" | 13%N => "d" | 14%N => "e"
  | _ => "f"
  end%char.

(** One character of QuoteJSONString. Strings are UTF-8 byte sequences:
    bytes from 0x20 up, other than the quote and the backslash, are copied. *)
Definition quote_char (c : ascii) : string :=
  let n := N_of_ascii c in
  if (n =? 8)%N then "\b"
  else if (n =? 9)%N then "\t"
  else if (n =? 10)%N then "\n"
  else if (n =? 12)%N then "\f"
  else if (n =? 13)%N then "\r"
  else if (n =? 34)%N then String "\" (String (ascii_of_N 34) "")
  else if (n =? 92)%N then "\\"
  else if (n <? 32)%N then
    "\u00" ++ String (hex_digit (n / 16)) (String (hex_digit (n mod 16)) "")
  else String c "".

Fixpoint quote_chars (s : string) : string :=
  match s with
  | EmptyString => ""
  | String c s' => quote_char c ++ quote_chars s'
  end.

Definition QuoteJSONString (s : string) : string :=
  String (ascii_of_N 34) (quote_chars s ++ String (ascii_of_N 34) "").

Definition newline : string := String (ascii_of_N 10) "".

(** The closing step shared by SerializeJSONObject and SerializeJSONArray. *)
Definition wrap (opening closing gap stepback indent : string)
                (partial : list string) : string :=
  match partial with
  | [] => opening ++ closing
  | _ =>
      if String.eqb gap "" then opening ++ join "," partial ++ closing
      else opening ++ newline ++ indent ++
           join ("," ++ newline ++ indent) partial ++
           newline ++ stepback ++ closing
  end.

Definition number_finite (n : number) : bool :=
  match n with NaN | Infinity _ => false | _ => true end.

(** SerializeJSONProperty; [None] is the [undefined] it answers for a value
    that has no JSON text. *)
Fixpoint SerializeJSONProperty (gap stepback : string) (v : value)
  : option string :=
  let indent := stepback ++ gap in
  match v with
  | VUndefined => None
  | VNull => Some "null"
  | VBool true => Some "true"
  | VBool false => Some "false"
  | VNum n => Some (if number_finite n then Number_toString n else "null")
  | VStr s => Some (QuoteJSONString s)
  | VArr elems =>
      Some (wrap "[" "]" gap stepback indent
              (map (fun x => match SerializeJSONProperty gap indent x with
                             | Some t => t
                             | None => "null"
                             end) elems))
  | VObj props =>
      Some (wrap "{" "}" gap stepback indent
              ((fix members (ps : list (string * value)) : list string :=
                  match ps with
                  | [] => []
                  | (k, x) :: rest =>
                      match SerializeJSONProperty gap indent x with
                      | Some t =>
                          (QuoteJSONString k ++ ":" ++
                           (if String.eqb gap "" then "" else " ") ++ t)
                          :: members rest
                      | None => members rest
                      end
                  end) props))
  end.

Fixpoint spaces (n : nat) : string :=
  match n with O => "" | S n' => String " " (spaces n') end.

(** [JSON.stringify(v, null, space)]; [space = 0] is [JSON.stringify(v)].
    The gap is at most ten spaces. *)
Definition JSON_stringify (v : value) (space : nat) : value :=
  match SerializeJSONProperty (spaces (Nat.min space 10)) "" v with
  | Some t => VStr t
  | None => VUndefined
  end.

Arguments JSON_stringify : simpl never.

End JS.

(* ===================================================================== *)
(** ** The worker *)
(* ===================================================================== *)

Module Worker.
Import JS.

(** *** Exceptions, collaborator calls and the handler monad *)

(** A thrown [Error]; the worker reads nothing but its [message]. *)
Record Error : Type := mkError { message : string }.

(** The outcome of an awaited call: a value, or a thrown error. *)
Inductive result (A : Type) : Type :=
| Return (a : A)
| Throw (e : Error).
Arguments Return {A} a.
Arguments Throw {A} e.

(** The calls the worker makes on its collaborators, with their arguments. *)
Inductive Call : Type :=
| R2_list_call (prefix : string)
| R2_get_call (key : value)
| Object_text_call
| AI_run_call (model : string) (inputs : value)
| VECTOR_INDEX_query_call (vector options : value).

(** An [async] computation: the collaborator calls it made, in order, and
    how it ended. [console.error] writes diagnostics only and is left out. *)
Definition M (A : Type) : Type := (list Call * result A)%type.

Definition ret {A} (a : A) : M A := ([], Return a).

Definition throw {A} (e : Error) : M A := ([], Throw e).

Definition bind {A B} (m : M A) (k : A -> M B) : M B :=
  match m with
  | (calls, Return a) => let (calls', r) := k a in ((calls ++ calls')%list, r)
  | (calls, Throw e) => (calls, Throw e)
  end.

(** [try { m } catch (e) { handler e }]. *)
Definition try_catch {A} (m : M A) (handler : Error -> M A) : M A :=
  match m with
  | (calls, Return a) => (calls, Return a)
  | (calls, Throw e) => let (calls', r) := handler e in ((calls ++ calls')%list, r)
  end.

(** An awaited collaborator call and its answer. *)
Definition call {A} (c : Call) (answer : result A) : M A := ([c], answer).

Notation "x <- m ;; k" := (bind m (fun x => k))
  (at level 61, m at next level, right associativity).

Fixpoint mapM {A B} (f : A -> M B) (l : list A) : M (list B) :=
  match l with
  | [] => ret []
  | x :: rest => y <- f x ;; ys <- mapM f rest ;; ret (y :: ys)
  end.

(** The engine's TypeErrors (V8 wording). *)
Definition TypeError (msg : string) : Error := mkError msg.

Definition cannot_read (v : value) (k : string) : string :=
  "Cannot read properties of " ++
  (match v with VNull => "null" | _ => "undefined" end) ++
  " (reading '" ++ k ++ "')".

Definition not_a_function (callee : string) : string :=
  callee ++ " is not a function".

(** [${v}] inside a template literal: the string form of [v], or the
    TypeError of a value that has none. *)
Definition interpolate (v : value) : M string :=
  match ToString v with
  | Some shown => ret shown
  | None => throw (TypeError "Cannot convert object to primitive value")
  end.

(** [v.k] where [v] may be [null] or [undefined]. *)
Definition member (v : value) (k : string) : M value :=
  if nullish v then throw (TypeError (cannot_read v k)) else ret (prop v k).

(** *** The bindings of [env] and the request *)

(** What [env.R2.get] resolves to when the key exists; [text] is the
    outcome of [await obj.text()]. *)
Record R2ObjectBody : Type := { text : result string }.

(** An entry of [list.objects]. [httpMetadata] is [undefined] when absent. *)
Record R2Object : Type := {
  key : string;
  size : number;
  httpMetadata : value
}.

Record R2Bucket : Type := {
  R2_list : string -> result (list R2Object);          (* list({ prefix }) *)
  R2_get : value -> result (option R2ObjectBody)       (* get(key); null = None *)
}.

Record Ai : Type := {
  AI_run : string -> value -> result value             (* run(model, inputs) *)
}.

Record VectorizeIndex : Type := {
  VECTOR_INDEX_query : value -> value -> result value  (* query(vector, options) *)
}.

(** [env]; a binding that is not configured is [undefined]. *)
Record Env : Type := {
  R2 : option R2Bucket;
  VECTOR_INDEX : option VectorizeIndex;
  AI : option Ai
}.

(** The request: its HTTP method and the outcome of [await request.json()].
    [request.url] of a Request is always an absolute URL, so [new URL] on it
    does not throw; [url] is not used afterwards. *)
Record Request : Type := {
  method : string;
  json : result value
}.

(** The first argument of [new Response]: a literal text, or
    [JSON.stringify(v)] kept as the object [v] it serializes. *)
Inductive BodyInit : Type :=
| BodyText (s : string)
| BodyJSON (v : value).

Record Response : Type := mkResponse {
  body : BodyInit;
  status : Z;
  headers : list (string * string)
}.

(** The text on the wire. *)
Definition body_text (r : Response) : string :=
  match body r with
  | BodyText s => s
  | BodyJSON v => match JSON_stringify v 0 with VStr t => t | _ => "" end
  end.

(** *** Response helpers *)

Definition json_headers : list (string * string) :=
  [("Content-Type", "application/json")].

Definition jsonRpcResult (id result : value) (httpStatus : Z) : Response :=
  mkResponse
    (BodyJSON (VObj [("jsonrpc", VStr "2.0"); ("id", id); ("result", result)]))
    httpStatus json_headers.

Definition jsonRpcError (id : value) (code : Z) (message : string)
                        (httpStatus : Z) : Response :=
  mkResponse
    (BodyJSON (VObj [("jsonrpc", VStr "2.0"); ("id", id);
                     ("error", VObj [("code", int code);
                                     ("message", VStr message)])]))
    httpStatus json_headers.

Definition legacyJson (obj : value) (status : Z) : Response :=
  mkResponse (BodyJSON obj) status json_headers.

(** The object literal [{ content: [{ type: "text", text }] }]. *)
Definition content (text : value) : value :=
  VObj [("content", VArr [VObj [("type", VStr "text"); ("text", text)]])].

(** The double quote, for the template literals that contain one. *)
Definition dquote : string := String (ascii_of_N 34) "".

(** *** Vector search helper *)

(** The callback of [matches.map] in [searchVectors]. *)
Definition match_record (m : value) : M value :=
  id <- member m "id" ;;
  ret (VObj [("id", id);
             ("score", prop m "score");
             ("source", opt_prop (prop m "metadata") "source");
             ("text", opt_prop (prop m "metadata") "text");
             ("metadata", or_else (prop m "metadata") empty_object)]).

Definition searchVectors (env : Env) (query topK : value) : M value :=
  match VECTOR_INDEX env with
  | None =>
      throw (mkError
        "VECTOR_INDEX binding is missing. Add a [[vectorize]] binding in wrangler.toml.")
  | Some index =>
  match AI env with
  | None =>
      throw (mkError
        "AI binding is missing. Add an [ai] binding in wrangler.toml or adjust searchVectors to use your embedding provider.")
  | Some ai =>
      (* 1. embedding of the query *)
      let model := "@cf/qwen/qwen3-embedding-0.6b" in
      let inputs := VObj [("text", VArr [query])] in
      embeddingResponse <- call (AI_run_call model inputs) (AI_run ai model inputs) ;;
      let embedding := opt_index0 (opt_prop embeddingResponse "data") in
      if negb (truthy embedding) || negb (isArray embedding) then
        throw (mkError "Could not extract embedding from Workers AI response.")
      else
        (* 2. query of the index *)
        let options := VObj [("topK", topK)] in
        vectorResult <- call (VECTOR_INDEX_query_call embedding options)
                             (VECTOR_INDEX_query index embedding options) ;;
        found <- member vectorResult "matches" ;;
        let matches :=
          or_else (or_else found (prop vectorResult "results")) (VArr []) in
        (* 3. normalization *)
        match matches with
        | VArr ms => records <- mapM match_record ms ;; ret (VArr records)
        | _ => throw (TypeError (not_a_function "matches.map"))
        end
  end
  end.

(** *** The calls on the R2 binding *)

(** [await env.R2.list({ prefix })], then [list.objects]. *)
Definition R2_list_objects (env : Env) (prefix : string) : M (list R2Object) :=
  match R2 env with
  | None => throw (TypeError (cannot_read VUndefined "list"))
  | Some bucket => call (R2_list_call prefix) (R2_list bucket prefix)
  end.

(** [await env.R2.get(path)]. *)
Definition R2_get_object (env : Env) (path : value) : M (option R2ObjectBody) :=
  match R2 env with
  | None => throw (TypeError (cannot_read VUndefined "get"))
  | Some bucket => call (R2_get_call path) (R2_get bucket path)
  end.

(** *** MCP / JSON-RPC handler *)

Definition initialize_result : value :=
  VObj [("protocolVersion", VStr "2024-11-05");
        ("capabilities", VObj [("tools", VObj [])]);
        ("serverInfo", VObj [("name", VStr "gencloud-qa-mcp");
                             ("version", VStr "0.1.0")]);
        ("instructions",
         VStr "This server exposes tools for listing and reading files from an R2 bucket and performing semantic search over a Cloudflare Vectorize index.")].

Definition tools_list_result : value :=
  VObj [("tools", VArr [
    VObj [("name", VStr "list_r2_files");
          ("description",
           VStr "List files in the bound R2 bucket under an optional prefix path.");
          ("inputSchema", VObj [
             ("type", VStr "object");
             ("properties", VObj [
                ("path", VObj [
                   ("type", VStr "string");
                   ("description",
                    VStr "Optional prefix/folder to list under. Example: 'logs/2025/'.")])]);
             ("additionalProperties", VBool false)])];
    VObj [("name", VStr "read_r2_file");
          ("description", VStr "Read a text file from the bound R2 bucket.");
          ("inputSchema", VObj [
             ("type", VStr "object");
             ("properties", VObj [
                ("path", VObj [
                   ("type", VStr "string");
                   ("description", VStr "Full key/path of the file in R2.")])]);
             ("required", VArr [VStr "path"]);
             ("additionalProperties", VBool false)])];
    VObj [("name", VStr "search_vectors");
          ("description",
           VStr "Semantic search over the Cloudflare Vectorize index. Returns the most relevant chunks with metadata.");
          ("inputSchema", VObj [
             ("type", VStr "object");
             ("properties", VObj [
                ("query", VObj [
                   ("type", VStr "string");
                   ("description", VStr "Natural language search query.")]);
                ("topK", VObj [
                   ("type", VStr "number");
                   ("description",
                    VStr "Number of top results to return (default: 5).")])]);
             ("required", VArr [VStr "query"]);
             ("additionalProperties", VBool false)])]])].

(** The [list_r2_files] branch of [tools/call]. *)
Definition call_list_r2_files (id args : value) (env : Env) : M Response :=
  let prefix := coalesce (prop args "path") (VStr "") in
  (* If no path is provided (or it's "/" or ""), list from bucket root *)
  prefix <-
    (if is_string prefix "" || is_string prefix "/" then ret ""
     else match prefix with
          | VStr p => if negb (endsWith p "/") then ret (p ++ "/") else ret p
          | _ => throw (TypeError (not_a_function "prefix.endsWith"))
          end) ;;
  objects <- R2_list_objects env prefix ;;
  let files :=
    map (fun obj =>
           VObj [("key", VStr (key obj));
                 ("size", VNum (size obj));
                 ("lastModified",
                  or_else (opt_prop (httpMetadata obj) "lastModified") VNull)])
        objects in
  ret (jsonRpcResult id (content (JSON_stringify (VArr files) 2)) 200).

(** The [read_r2_file] branch of [tools/call]. *)
Definition call_read_r2_file (id args : value) (env : Env) : M Response :=
  let path := prop args "path" in
  if negb (truthy path) then
    ret (jsonRpcResult id (content (VStr "Error: missing 'path' argument")) 200)
  else
    obj <- R2_get_object env path ;;
    match obj with
    | None =>
        shown <- interpolate path ;;
        ret (jsonRpcResult id
               (content (VStr ("Error: File " ++ dquote ++ shown ++
                               dquote ++ " not found"))) 200)
    | Some obj =>
        bodyText <- call Object_text_call (text obj) ;;
        ret (jsonRpcResult id (content (VStr bodyText)) 200)
    end.

(** The [search_vectors] branch of [tools/call]. *)
Definition call_search_vectors (id args : value) (env : Env) : M Response :=
  let query := prop args "query" in
  let topK := coalesce (prop args "topK") (int 5) in
  if negb (truthy query) then
    ret (jsonRpcResult id (content (VStr "Error: missing 'query' argument")) 200)
  else
    try_catch
      (matches <- searchVectors env query topK ;;
       ret (jsonRpcResult id (content (JSON_stringify matches 2)) 200))
      (fun e =>
         ret (jsonRpcResult id
                (content (VStr ("Error running search_vectors: " ++ message e)))
                200)).

Definition handleJsonRpc (body : value) (env : Env) : M Response :=
  let id := prop body "id" in
  let method := prop body "method" in
  let params := prop body "params" in
  (* ---- initialize handshake ---- *)
  if is_string method "initialize" then
    ret (jsonRpcResult id initialize_result 200)
  (* ---- tools/list ---- *)
  else if is_string method "tools/list" then
    ret (jsonRpcResult id tools_list_result 200)
  (* ---- tools/call ---- *)
  else if is_string method "tools/call" then
    let toolName := opt_prop params "name" in
    let args := or_else (opt_prop params "arguments") empty_object in
    if negb (truthy toolName) then
      ret (jsonRpcError id (-32602) "Missing tool name in params.name" 200)
    else if is_string toolName "list_r2_files" then call_list_r2_files id args env
    else if is_string toolName "read_r2_file" then call_read_r2_file id args env
    else if is_string toolName "search_vectors" then call_search_vectors id args env
    else
      shown <- interpolate toolName ;;
      ret (jsonRpcError id (-32601) ("Unknown tool: " ++ shown) 200)
  else
    shown <- interpolate method ;;
    ret (jsonRpcError id (-32601) ("Unknown method: " ++ shown) 200).

(** *** The legacy flat calls of [fetch] *)

Definition legacy_list_r2_files (params : value) (env : Env) : M Response :=
  let prefix := coalesce (opt_prop params "path") (VStr "") in
  (* Handle root *)
  prefix <-
    (if is_string prefix "" || is_string prefix "/" then ret ""
     else match prefix with
          | VStr p => if negb (endsWith p "/") then ret (p ++ "/") else ret p
          | _ => throw (TypeError (not_a_function "prefix.endsWith"))
          end) ;;
  objects <- R2_list_objects env prefix ;;
  let files :=
    map (fun obj =>
           VObj [("key", VStr (key obj));
                 ("size", VNum (size obj));
                 ("lastModified",
                  or_else (opt_prop (httpMetadata obj) "lastModified") VNull)])
        objects in
  ret (legacyJson (content (JSON_stringify (VArr files) 2)) 200).

Definition legacy_read_r2_file (params : value) (env : Env) : M Response :=
  let path := opt_prop params "path" in
  if negb (truthy path) then
    ret (legacyJson (content (VStr "Error: missing 'path'")) 200)
  else
    obj <- R2_get_object env path ;;
    match obj with
    | None =>
        shown <- interpolate path ;;
        ret (legacyJson
               (content (VStr ("Error: File " ++ dquote ++ shown ++
                               dquote ++ " not found"))) 200)
    | Some obj =>
        bodyText <- call Object_text_call (text obj) ;;
        ret (legacyJson (content (VStr bodyText)) 200)
    end.

Definition legacy_search_vectors (params : value) (env : Env) : M Response :=
  let query := opt_prop params "query" in
  let topK := coalesce (opt_prop params "topK") (int 5) in
  if negb (truthy query) then
    ret (legacyJson (content (VStr "Error: missing 'query'")) 200)
  else
    try_catch
      (matches <- searchVectors env query topK ;;
       ret (legacyJson (content (JSON_stringify matches 2)) 200))
      (fun e =>
         ret (legacyJson
                (content (VStr ("Error running search_vectors: " ++ message e)))
                200)).

(** *** The dispatcher *)

(** The body of the [try] block of [fetch]. *)
Definition fetch_try (request : Request) (env : Env) : M Response :=
  (* Simple GET health check *)
  if String.eqb (method request) "GET" then
    ret (mkResponse
           (BodyText "MCP Worker is running. Send JSON-RPC 2.0 via POST.") 200 [])
  else if negb (String.eqb (method request) "POST") then
    ret (jsonRpcError VNull (-32600) "Invalid request method (POST required)" 200)
  else
    match json request with
    | Throw _ => ret (jsonRpcError VNull (-32700) "Parse error: invalid JSON" 200)
    | Return body =>
        (* JSON-RPC / MCP path *)
        if truthy body && is_string (prop body "jsonrpc") "2.0" then
          handleJsonRpc body env
        else
          (* Optional legacy mode for manual tests: { method, params } *)
          let method := prop (or_else body empty_object) "method" in
          let params := prop (or_else body empty_object) "params" in
          if is_string method "list_r2_files" then legacy_list_r2_files params env
          else if is_string method "read_r2_file" then legacy_read_r2_file params env
          else if is_string method "search_vectors" then legacy_search_vectors params env
          else
            shown <- interpolate method ;;
            ret (legacyJson (content (VStr ("Unknown method: " ++ shown))) 200)
    end.

(** [fetch]: the [try] block under the catch-all. What it answers is the
    collaborator calls it made and the response it resolved to. *)
Definition fetch (request : Request) (env : Env) : list Call * Response :=
  match fetch_try request env with
  | (calls, Return response) => (calls, response)
  | (calls, Throw err) =>
      (calls,
       jsonRpcError VNull (-32603) ("Internal error: " ++ message err) 200)
  end.

End Worker.

(* ===================================================================== *)
(** ** Requests, envelopes and the collaborators of the examples *)
(* ===================================================================== *)

Import JS Worker.

(** A POST whose body parsed to [body]. *)
Definition POST (body : value) : Request :=
  {| method := "POST"; json := Return body |}.

(** The dispatcher's test for the JSON-RPC / MCP path. *)
Definition is_jsonrpc (body : value) : bool :=
  truthy body && is_string (prop body "jsonrpc") "2.0".

(** The MCP request [{jsonrpc: "2.0", id, method: "tools/call",
    params: {name, arguments}}]. *)
Definition tools_call (id name arguments : value) : Request :=
  POST (VObj [("jsonrpc", VStr "2.0"); ("id", id);
              ("method", VStr "tools/call");
              ("params", VObj [("name", name); ("arguments", arguments)])]).

(** The legacy flat call [{method, params}]. *)
Definition legacy_call (method params : value) : Request :=
  POST (VObj [("method", method); ("params", params)]).

(** The three response envelopes. *)
Inductive Envelope : Type :=
| JsonRpcResult (id result : value)
| JsonRpcError (id : value) (code : Z) (message : string)
| LegacyContent (text : string).

(** The object each envelope is on the wire. *)
Definition encode (e : Envelope) : value :=
  match e with
  | JsonRpcResult id result =>
      VObj [("jsonrpc", VStr "2.0"); ("id", id); ("result", result)]
  | JsonRpcError id code message =>
      VObj [("jsonrpc", VStr "2.0"); ("id", id);
            ("error", VObj [("code", int code); ("message", VStr message)])]
  | LegacyContent text =>
      VObj [("content", VArr [VObj [("type", VStr "text"); ("text", VStr text)]])]
  end.

(** The response of the GET health check. *)
Definition health_check : Response :=
  mkResponse (BodyText "MCP Worker is running. Send JSON-RPC 2.0 via POST.") 200 [].

(** The three tool names. *)
Definition known_tool (name : value) : bool :=
  is_string name "list_r2_files" || is_string name "read_r2_file" ||
  is_string name "search_vectors".

(** The three methods of the MCP handler. *)
Definition known_method (method : value) : bool :=
  is_string method "initialize" || is_string method "tools/list" ||
  is_string method "tools/call".

(** An environment with no binding configured. *)
Definition no_bindings : Env :=
  {| R2 := None; VECTOR_INDEX := None; AI := None |}.

(** A bucket whose storage service is down. *)
Definition failing_bucket : R2Bucket :=
  {| R2_list := fun _ => Throw (mkError "R2 unavailable");
     R2_get := fun _ => Throw (mkError "R2 unavailable") |}.

(** A bucket with one object under [logs/]. *)
Definition logs_bucket : R2Bucket :=
  {| R2_list := fun prefix =>
       if String.eqb prefix "logs/" then
         Return [{| key := "logs/a.txt"; size := Dec 12 0; httpMetadata := VUndefined |}]
       else Return [];
     R2_get := fun k =>
       if is_string k "logs/a.txt" then Return (Some {| text := Return "twelve bytes" |})
       else Return None |}.

(** The embedding provider and the index of the search example: the
    embedding is [[0.1, 0.2]], the index answers one match. *)
Definition example_ai : Ai :=
  {| AI_run := fun _ _ =>
       Return (VObj [("data", VArr [VArr [VNum (Dec 1 (-1)); VNum (Dec 2 (-1))]])]) |}.

Definition example_match : value :=
  VObj [("id", VStr "a"); ("score", VNum (Dec 9 (-1)));
        ("metadata", VObj [("source", VStr "s"); ("text", VStr "t")])].

Definition example_index : VectorizeIndex :=
  {| VECTOR_INDEX_query := fun _ _ =>
       Return (VObj [("matches", VArr [example_match])]) |}.

Definition example_env : Env :=
  {| R2 := Some logs_bucket;
     VECTOR_INDEX := Some example_index;
     AI := Some example_ai |}.

Definition failing_env : Env :=
  {| R2 := Some failing_bucket; VECTOR_INDEX := None; AI := None |}.

(** *** The text a tool answers, apart from its envelope

    The legacy branch and the [tools/call] branch of a tool run the same
    steps and differ in the envelope they build around the text and in the
    wording of the missing-argument text. These definitions are that common
    part; [call_list_r2_files_text] and its siblings below relate each branch
    of the source to them. *)

Definition fmap {A B} (f : A -> B) (m : M A) : M B :=
  match m with
  | (calls, Return a) => (calls, Return (f a))
  | (calls, Throw e) => (calls, Throw e)
  end.

(** The envelope of a [tools/call] answer and of a legacy answer. *)
Definition mcp_reply (id text : value) : Response :=
  jsonRpcResult id (content text) 200.

Definition legacy_reply (text : value) : Response :=
  legacyJson (content text) 200.

(** Prefix normalization in the words of the specification: empty or "/" is
    the root prefix; a value that does not end in "/" gets one appended. *)
Definition normalize_prefix (p : string) : string :=
  if String.eqb p "" || String.eqb p "/" then ""
  else if endsWith p "/" then p
  else p ++ "/".

Definition file_entry (obj : R2Object) : value :=
  VObj [("key", VStr (key obj));
        ("size", VNum (size obj));
        ("lastModified", or_else (opt_prop (httpMetadata obj) "lastModified") VNull)].

Definition list_r2_files_text (path : value) (env : Env) : M value :=
  match coalesce path (VStr "") with
  | VStr p =>
      fmap (fun objects => JSON_stringify (VArr (map file_entry objects)) 2)
           (R2_list_objects env (normalize_prefix p))
  | _ => throw (TypeError (not_a_function "prefix.endsWith"))
  end.

Definition read_r2_file_text (missing : string) (path : value) (env : Env)
  : M value :=
  if truthy path then
    match R2_get_object env path with
    | (calls, Return None) =>
        match ToString path with
        | Some shown =>
            (calls, Return (VStr ("Error: File " ++ dquote ++ shown ++
                                  dquote ++ " not found")))
        | None =>
            (calls, Throw (TypeError "Cannot convert object to primitive value"))
        end
    | (calls, Return (Some obj)) =>
        match text obj with
        | Return bodyText => ((calls ++ [Object_text_call])%list, Return (VStr bodyText))
        | Throw e => ((calls ++ [Object_text_call])%list, Throw e)
        end
    | (calls, Throw e) => (calls, Throw e)
    end
  else ret (VStr missing).

Definition search_vectors_text (missing : string) (query topK : value)
                               (env : Env) : M value :=
  if truthy query then
    match searchVectors env query (coalesce topK (int 5)) with
    | (calls, Return matches) => (calls, Return (JSON_stringify matches 2))
    | (calls, Throw e) =>
        (calls, Return (VStr ("Error running search_vectors: " ++ message e)))
    end
  else ret (VStr missing).

(** The Match Record of a raw match, in the words of the specification:
    [id] and [score] passed through, [source] and [text] taken from the
    nested metadata, and the metadata mapping itself, or the empty mapping
    when the match has none. *)
Definition Match_Record (m : value) : value :=
  let metadata := prop m "metadata" in
  VObj [("id", prop m "id");
        ("score", prop m "score");
        ("source", prop metadata "source");
        ("text", prop metadata "text");
        ("metadata", if truthy metadata then metadata else VObj [])].

(** The two calls of a search that reaches the index. *)
Definition search_calls (query topK embedding : value) : list Call :=
  [AI_run_call "@cf/qwen/qwen3-embedding-0.6b" (VObj [("text", VArr [query])]);
   VECTOR_INDEX_query_call embedding (VObj [("topK", topK)])].

(** The reading of the two kinds of body. *)
Definition tool_name (body : value) : value := prop (prop body "params") "name".

Definition tool_argument (body : value) (k : string) : value :=
  prop (prop (prop body "params") "arguments") k.

Definition legacy_argument (body : value) (k : string) : value :=
  prop (prop body "params") k.

(** The text of a tool by name; [mcp] selects the wording of the
    missing-argument text, [arg] reads an argument. *)
Definition tool_text (mcp : bool) (tool : string) (arg : string -> value)
                     (env : Env) : M value :=
  if String.eqb tool "list_r2_files" then list_r2_files_text (arg "path") env
  else if String.eqb tool "read_r2_file" then
    read_r2_file_text
      (if mcp then "Error: missing 'path' argument" else "Error: missing 'path'")
      (arg "path") env
  else
    search_vectors_text
      (if mcp then "Error: missing 'query' argument" else "Error: missing 'query'")
      (arg "query") (arg "topK") env.

(** What [fetch] answers for a text computation: the text in the envelope
    [reply], or the internal error of the catch-all. *)
Definition answer (reply : value -> Response) (m : M value)
  : list Call * Response :=
  match m with
  | (calls, Return text) => (calls, reply text)
  | (calls, Throw err) =>
      (calls, jsonRpcError VNull (-32603) ("Internal error: " ++ message err) 200)
  end.

(** A response with status 200 that carries one of the three envelopes. *)
Definition enveloped (r : Response) : Prop :=
  status r = 200 /\ headers r = json_headers /\
  exists e, body r = BodyJSON (encode e).

(** *** What a response carries, stated apart from the helpers *)

(** The tool answer [{ content: [{ type: "text", text }] }] for a text. *)
Definition text_content (text : string) : value :=
  VObj [("content", VArr [VObj [("type", VStr "text"); ("text", VStr text)]])].

(** The response [r] carries the envelope [e]: HTTP status 200, the JSON
    content type, and a body that is the JSON of [e]. *)
Definition carries (r : Response) (e : Envelope) : Prop :=
  status r = 200 /\
  headers r = [("Content-Type", "application/json")] /\
  body r = BodyJSON (encode e).


(** The message of the TypeError of a template literal on a value that has
    no string form. *)
Definition no_string_form : string := "Cannot convert object to primitive value".

(** A bucket whose one object cannot be read. *)
Definition unreadable_bucket : R2Bucket :=
  {| R2_list := fun _ => Return [];
     R2_get := fun _ => Return (Some {| text := Throw (mkError "stream closed") |}) |}.

Definition unreadable_env : Env :=
  {| R2 := Some unreadable_bucket; VECTOR_INDEX := None; AI := None |}.

(** *** Further notions used by the properties of the whole dispatcher *)

(** The tool names that [tools/list] advertises, read off its result. *)
Definition advertised_tools : list value :=
  match prop tools_list_result "tools" with
  | VArr tools => map (fun tool => prop tool "name") tools
  | _ => []
  end.

(** The collaborator calls one request can make. *)
Inductive call_pattern : list Call -> Prop :=
| no_call : call_pattern []
| listing prefix : call_pattern [R2_list_call prefix]
| lookup key : call_pattern [R2_get_call key]
| lookup_and_read key : call_pattern [R2_get_call key; Object_text_call]
| embedding_only model inputs : call_pattern [AI_run_call model inputs]
| embedding_then_query model inputs vector options :
    call_pattern [AI_run_call model inputs; VECTOR_INDEX_query_call vector options].

(** The match list [searchVectors] picks from the answer of the index. *)
Definition chosen_matches (vectorResult : value) : value :=
  or_else (or_else (prop vectorResult "matches") (prop vectorResult "results"))
          (VArr []).

(** The literals of [searchVectors]. *)
Definition embedding_model : string := "@cf/qwen/qwen3-embedding-0.6b".

Definition missing_index_message : string :=
  "VECTOR_INDEX binding is missing. Add a [[vectorize]] binding in wrangler.toml.".


Definition no_embedding_message : string :=
  "Could not extract embedding from Workers AI response.".

(** The JSON text of a value, as [JSON.stringify(v)] writes it. *)
Definition JSON_text (v : value) : string :=
  match JSON_stringify v 0 with VStr t => t | _ => "" end.

(** A call of [tool] with the argument [arg] bound to [v], on the MCP path
    or on the legacy path. *)
Definition calls_tool (body : value) (tool arg : string) (v : value) : Prop :=
  (is_jsonrpc body = true /\ prop body "method" = VStr "tools/call" /\
   tool_name body = VStr tool /\ tool_argument body arg = v) \/
  (is_jsonrpc body = false /\ prop body "method" = VStr tool /\
   legacy_argument body arg = v).

(** The error codes the worker uses. *)
Definition error_codes : list Z := [-32600; -32700; -32601; -32602; -32603].

(* ===================================================================== *)
(** ** Basic facts about the runtime fragment and the monad *)
(* ===================================================================== *)

Lemma opt_prop_prop (v : value) (k : string) : opt_prop v k = prop v k.
Proof. destruct v; reflexivity. Qed.

(** [(v || {}).k] reads what [v?.k] reads. *)
Lemma prop_or_else_empty (v : value) (k : string) :
  prop (or_else v empty_object) k = prop v k.
Proof.
  unfold or_else. destruct (truthy v) eqn:Ht; [reflexivity|].
  destruct v; simpl in *; try reflexivity; discriminate.
Qed.

Lemma is_string_true (v : value) (lit : string) :
  is_string v lit = true <-> v = VStr lit.
Proof.
  destruct v; simpl; try (split; [discriminate | intros H; discriminate H]).
  rewrite String.eqb_eq. split; [intros -> | intros [= ->]]; reflexivity.
Qed.

Lemma is_jsonrpc_true (body : value) :
  is_jsonrpc body = true <-> prop body "jsonrpc" = VStr "2.0".
Proof.
  unfold is_jsonrpc. rewrite andb_true_iff, is_string_true. split.
  - intros [_ H]; exact H.
  - intros H; split; [|exact H]. destruct body; simpl in *; try discriminate; reflexivity.
Qed.

Lemma endsWith_refl (s : string) : endsWith s s = true.
Proof. destruct s; simpl; [reflexivity|]. rewrite Ascii.eqb_refl, String.eqb_refl. reflexivity. Qed.

Lemma endsWith_append (p suffix : string) : endsWith (p ++ suffix) suffix = true.
Proof.
  induction p as [|c p IH]; simpl.
  - apply endsWith_refl.
  - rewrite IH.
    match goal with |- (if ?b then _ else _) = _ => destruct b end; reflexivity.
Qed.

(* ===================================================================== *)
(** ** Routing *)
(* ===================================================================== *)

(** A body with [jsonrpc === "2.0"] is handed to the MCP handler. *)
Lemma fetch_try_jsonrpc (body : value) (env : Env) :
  is_jsonrpc body = true ->
  fetch_try (POST body) env = handleJsonRpc body env.
Proof.
  intros H. unfold fetch_try, POST; cbn [method json].
  change (truthy body && is_string (prop body "jsonrpc") "2.0") with (is_jsonrpc body).
  rewrite H. reflexivity.
Qed.

(** Any other body is read as a legacy flat call. *)
Lemma fetch_try_legacy (body : value) (env : Env) :
  is_jsonrpc body = false ->
  fetch_try (POST body) env =
    if is_string (prop body "method") "list_r2_files" then
      legacy_list_r2_files (prop body "params") env
    else if is_string (prop body "method") "read_r2_file" then
      legacy_read_r2_file (prop body "params") env
    else if is_string (prop body "method") "search_vectors" then
      legacy_search_vectors (prop body "params") env
    else
      shown <- interpolate (prop body "method") ;;
      ret (legacyJson (content (VStr ("Unknown method: " ++ shown))) 200).
Proof.
  intros H. unfold fetch_try, POST; cbn [method json].
  change (truthy body && is_string (prop body "jsonrpc") "2.0") with (is_jsonrpc body).
  rewrite H, !prop_or_else_empty. reflexivity.
Qed.

(** [tools/call] with a tool name that is present. *)
Lemma handleJsonRpc_tools_call (body : value) (env : Env) :
  prop body "method" = VStr "tools/call" ->
  truthy (prop (prop body "params") "name") = true ->
  handleJsonRpc body env =
    let id := prop body "id" in
    let toolName := prop (prop body "params") "name" in
    let args := or_else (prop (prop body "params") "arguments") empty_object in
    if is_string toolName "list_r2_files" then call_list_r2_files id args env
    else if is_string toolName "read_r2_file" then call_read_r2_file id args env
    else if is_string toolName "search_vectors" then call_search_vectors id args env
    else
      shown <- interpolate toolName ;;
      ret (jsonRpcError id (-32601) ("Unknown tool: " ++ shown) 200).
Proof.
  intros Hm Hn. unfold handleJsonRpc. rewrite Hm, !opt_prop_prop, Hn. reflexivity.
Qed.

(** A template literal on a value with a string form, and on one without. *)
Lemma interpolate_some (v : value) (shown : string) :
  ToString v = Some shown -> interpolate v = ret shown.
Proof. unfold interpolate. intros ->. reflexivity. Qed.

Lemma interpolate_none (v : value) :
  ToString v = None -> interpolate v = throw (TypeError no_string_form).
Proof. unfold interpolate. intros ->. reflexivity. Qed.

(** What [fetch] answers once the [try] block is known. *)
Lemma fetch_of_return (request : Request) (env : Env) calls response :
  fetch_try request env = (calls, Return response) ->
  fetch request env = (calls, response).
Proof. unfold fetch. intros ->. reflexivity. Qed.

Lemma fetch_of_throw (request : Request) (env : Env) calls err :
  fetch_try request env = (calls, Throw err) ->
  fetch request env =
    (calls, jsonRpcError VNull (-32603) ("Internal error: " ++ message err) 200).
Proof. unfold fetch. intros ->. reflexivity. Qed.

Lemma missing_tool_name (body : value) (env : Env) :
  is_jsonrpc body = true ->
  prop body "method" = VStr "tools/call" ->
  truthy (tool_name body) = false ->
  fetch (POST body) env =
    ([], jsonRpcError (prop body "id") (-32602) "Missing tool name in params.name" 200).
Proof.
  intros Hrpc Hm Hn. apply fetch_of_return. rewrite (fetch_try_jsonrpc _ _ Hrpc).
  unfold handleJsonRpc, tool_name in *. rewrite Hm, opt_prop_prop, Hn. reflexivity.
Qed.

Lemma unknown_tool (body : value) (env : Env) (shown : string) :
  is_jsonrpc body = true ->
  prop body "method" = VStr "tools/call" ->
  truthy (tool_name body) = true ->
  known_tool (tool_name body) = false ->
  ToString (tool_name body) = Some shown ->
  fetch (POST body) env =
    ([], jsonRpcError (prop body "id") (-32601) ("Unknown tool: " ++ shown) 200).
Proof.
  intros Hrpc Hm Hn Hk Hs. apply fetch_of_return. rewrite (fetch_try_jsonrpc _ _ Hrpc).
  unfold tool_name in *.
  rewrite (handleJsonRpc_tools_call _ _ Hm Hn). cbv zeta.
  unfold known_tool in Hk. apply orb_false_iff in Hk as [Hk Hsv].
  apply orb_false_iff in Hk as [Hl Hr]. rewrite Hl, Hr, Hsv.
  rewrite (interpolate_some _ _ Hs). reflexivity.
Qed.

Lemma unknown_tool_unprintable (body : value) (env : Env) :
  is_jsonrpc body = true ->
  prop body "method" = VStr "tools/call" ->
  truthy (tool_name body) = true ->
  known_tool (tool_name body) = false ->
  ToString (tool_name body) = None ->
  fetch (POST body) env =
    ([], jsonRpcError VNull (-32603) ("Internal error: " ++ no_string_form) 200).
Proof.
  intros Hrpc Hm Hn Hk Hs. apply fetch_of_throw with (err := TypeError no_string_form).
  rewrite (fetch_try_jsonrpc _ _ Hrpc). unfold tool_name in *.
  rewrite (handleJsonRpc_tools_call _ _ Hm Hn). cbv zeta.
  unfold known_tool in Hk. apply orb_false_iff in Hk as [Hk Hsv].
  apply orb_false_iff in Hk as [Hl Hr]. rewrite Hl, Hr, Hsv.
  rewrite (interpolate_none _ Hs). reflexivity.
Qed.

Lemma unknown_method (body : value) (env : Env) (shown : string) :
  is_jsonrpc body = true ->
  known_method (prop body "method") = false ->
  ToString (prop body "method") = Some shown ->
  fetch (POST body) env =
    ([], jsonRpcError (prop body "id") (-32601) ("Unknown method: " ++ shown) 200).
Proof.
  intros Hrpc Hk Hs. apply fetch_of_return. rewrite (fetch_try_jsonrpc _ _ Hrpc).
  unfold known_method in Hk. apply orb_false_iff in Hk as [Hk Hc].
  apply orb_false_iff in Hk as [Hi Hl].
  unfold handleJsonRpc. rewrite Hi, Hl, Hc, (interpolate_some _ _ Hs). reflexivity.
Qed.

Lemma unknown_method_unprintable (body : value) (env : Env) :
  is_jsonrpc body = true ->
  known_method (prop body "method") = false ->
  ToString (prop body "method") = None ->
  fetch (POST body) env =
    ([], jsonRpcError VNull (-32603) ("Internal error: " ++ no_string_form) 200).
Proof.
  intros Hrpc Hk Hs. apply fetch_of_throw with (err := TypeError no_string_form).
  rewrite (fetch_try_jsonrpc _ _ Hrpc).
  unfold known_method in Hk. apply orb_false_iff in Hk as [Hk Hc].
  apply orb_false_iff in Hk as [Hi Hl].
  unfold handleJsonRpc. rewrite Hi, Hl, Hc, (interpolate_none _ Hs). reflexivity.
Qed.

(** What the three helpers build, against the envelopes. *)
Lemma carries_jsonRpcError (id : value) code msg :
  carries (jsonRpcError id code msg 200) (JsonRpcError id code msg).
Proof. repeat split. Qed.

Lemma carries_jsonRpcResult (id result : value) :
  carries (jsonRpcResult id result 200) (JsonRpcResult id result).
Proof. repeat split. Qed.

Lemma carries_tool_result (id : value) (t : string) :
  carries (jsonRpcResult id (content (VStr t)) 200) (JsonRpcResult id (text_content t)).
Proof. repeat split. Qed.

Lemma carries_legacy_content (t : string) :
  carries (legacyJson (content (VStr t)) 200) (LegacyContent t).
Proof. repeat split. Qed.

(** From an equation on [fetch] to what was called and what is carried. *)
Lemma fetch_carries (request : Request) (env : Env) calls response e :
  fetch request env = (calls, response) ->
  carries response e ->
  fst (fetch request env) = calls /\ carries (snd (fetch request env)) e.
Proof. intros -> H. split; [reflexivity | exact H]. Qed.

(* ===================================================================== *)
(** ** Protocol errors *)
(* ===================================================================== *)

(** C8. A request whose HTTP method is neither GET nor POST is answered, at
    HTTP status 200, with the JSON-RPC error of code -32600 and id null; a
    POST whose body does not parse as JSON is answered, at HTTP status 200,
    with the JSON-RPC error of code -32700 and id null. Neither touches a
    collaborator. *)
Theorem method_and_parse_errors (request : Request) (env : Env) :
  (method request <> "GET" -> method request <> "POST" ->
   fst (fetch request env) = [] /\
   status (snd (fetch request env)) = 200 /\
   carries (snd (fetch request env))
           (JsonRpcError VNull (-32600) "Invalid request method (POST required)")) /\
  (method request = "POST" -> (exists e, json request = Throw e) ->
   fst (fetch request env) = [] /\
   status (snd (fetch request env)) = 200 /\
   carries (snd (fetch request env))
           (JsonRpcError VNull (-32700) "Parse error: invalid JSON")).
Proof.
  split.
  - intros Hget Hpost.
    assert (E : fetch request env =
      ([], jsonRpcError VNull (-32600) "Invalid request method (POST required)" 200)).
    { apply fetch_of_return. unfold fetch_try.
      destruct (String.eqb_spec (method request) "GET") as [Heq|_]; [contradiction|].
      destruct (String.eqb_spec (method request) "POST") as [Heq|_]; [contradiction|].
      reflexivity. }
    rewrite E. split; [reflexivity|]. split; [reflexivity|].
    apply carries_jsonRpcError.
  - intros Hpost [e He].
    assert (E : fetch request env =
      ([], jsonRpcError VNull (-32700) "Parse error: invalid JSON" 200)).
    { apply fetch_of_return. unfold fetch_try. rewrite Hpost, He. reflexivity. }
    rewrite E. split; [reflexivity|]. split; [reflexivity|].
    apply carries_jsonRpcError.
Qed.

Lemma method_and_parse_errors_witness :
  carries (snd (fetch {| method := "DELETE"; json := Return VNull |} no_bindings))
          (JsonRpcError VNull (-32600) "Invalid request method (POST required)") /\
  carries (snd (fetch {| method := "POST"; json := Throw (mkError "Unexpected token") |}
                      no_bindings))
          (JsonRpcError VNull (-32700) "Parse error: invalid JSON").
Proof.
  split.
  - destruct (method_and_parse_errors
                {| method := "DELETE"; json := Return VNull |} no_bindings)
      as (Hmethod & _).
    apply Hmethod; simpl; discriminate.
  - destruct (method_and_parse_errors
                {| method := "POST"; json := Throw (mkError "Unexpected token") |}
                no_bindings) as (_ & Hparse).
    apply Hparse; [reflexivity | eexists; reflexivity].
Defined.





(* ===================================================================== *)
(** ** The two branches of each tool and the text they share *)
(* ===================================================================== *)

Lemma call_list_r2_files_text (id args : value) (env : Env) :
  call_list_r2_files id args env =
    fmap (mcp_reply id) (list_r2_files_text (prop args "path") env).
Proof.
  unfold call_list_r2_files, list_r2_files_text, normalize_prefix, R2_list_objects.
  destruct (coalesce (prop args "path") (VStr "")) as [| |b|n|p|l|l]; try reflexivity.
  cbn [is_string].
  destruct (R2 env) as [bucket|];
    destruct (String.eqb p "" || String.eqb p "/"); cbn; try reflexivity.
  - destruct (R2_list bucket ""); reflexivity.
  - destruct (endsWith p "/"); cbn; [destruct (R2_list bucket p) | destruct (R2_list bucket (p ++ "/"))];
      reflexivity.
  - destruct (endsWith p "/"); reflexivity.
Qed.

Lemma legacy_list_r2_files_text (params : value) (env : Env) :
  legacy_list_r2_files params env =
    fmap legacy_reply (list_r2_files_text (prop params "path") env).
Proof.
  unfold legacy_list_r2_files, list_r2_files_text, normalize_prefix, R2_list_objects.
  rewrite opt_prop_prop.
  destruct (coalesce (prop params "path") (VStr "")) as [| |b|n|p|l|l]; try reflexivity.
  cbn [is_string].
  destruct (R2 env) as [bucket|];
    destruct (String.eqb p "" || String.eqb p "/"); cbn; try reflexivity.
  - destruct (R2_list bucket ""); reflexivity.
  - destruct (endsWith p "/"); cbn; [destruct (R2_list bucket p) | destruct (R2_list bucket (p ++ "/"))];
      reflexivity.
  - destruct (endsWith p "/"); reflexivity.
Qed.

Lemma call_read_r2_file_text (id args : value) (env : Env) :
  call_read_r2_file id args env =
    fmap (mcp_reply id)
         (read_r2_file_text "Error: missing 'path' argument" (prop args "path") env).
Proof.
  unfold call_read_r2_file, read_r2_file_text, R2_get_object.
  destruct (truthy (prop args "path")); [|reflexivity]. cbn [negb].
  destruct (R2 env) as [bucket|]; [|reflexivity]. cbn.
  destruct (R2_get bucket (prop args "path")) as [[obj|]|e]; try reflexivity.
  - cbn. destruct (text obj); reflexivity.
  - unfold interpolate. destruct (ToString (prop args "path")); reflexivity.
Qed.

Lemma legacy_read_r2_file_text (params : value) (env : Env) :
  legacy_read_r2_file params env =
    fmap legacy_reply
         (read_r2_file_text "Error: missing 'path'" (prop params "path") env).
Proof.
  unfold legacy_read_r2_file, read_r2_file_text, R2_get_object.
  rewrite opt_prop_prop.
  destruct (truthy (prop params "path")); [|reflexivity]. cbn [negb].
  destruct (R2 env) as [bucket|]; [|reflexivity]. cbn.
  destruct (R2_get bucket (prop params "path")) as [[obj|]|e]; try reflexivity.
  - cbn. destruct (text obj); reflexivity.
  - unfold interpolate. destruct (ToString (prop params "path")); reflexivity.
Qed.

Lemma call_search_vectors_text (id args : value) (env : Env) :
  call_search_vectors id args env =
    fmap (mcp_reply id)
         (search_vectors_text "Error: missing 'query' argument"
            (prop args "query") (prop args "topK") env).
Proof.
  unfold call_search_vectors, search_vectors_text.
  destruct (truthy (prop args "query")); [|reflexivity]. cbn [negb].
  destruct (searchVectors env (prop args "query") (coalesce (prop args "topK") (int 5)))
    as [calls [matches|e]]; cbn; rewrite ?app_nil_r; reflexivity.
Qed.

Lemma legacy_search_vectors_text (params : value) (env : Env) :
  legacy_search_vectors params env =
    fmap legacy_reply
         (search_vectors_text "Error: missing 'query'"
            (prop params "query") (prop params "topK") env).
Proof.
  unfold legacy_search_vectors, search_vectors_text.
  rewrite !opt_prop_prop.
  destruct (truthy (prop params "query")); [|reflexivity]. cbn [negb].
  destruct (searchVectors env (prop params "query") (coalesce (prop params "topK") (int 5)))
    as [calls [matches|e]]; cbn; rewrite ?app_nil_r; reflexivity.
Qed.

Lemma fetch_fmap (request : Request) (env : Env) reply (m : M value) :
  fetch_try request env = fmap reply m ->
  fetch request env = answer reply m.
Proof.
  unfold fetch. intros ->. destruct m as [calls [t|e]]; reflexivity.
Qed.

Lemma fetch_tools_call (body : value) (env : Env) (tool : string) :
  is_jsonrpc body = true ->
  prop body "method" = VStr "tools/call" ->
  tool_name body = VStr tool ->
  known_tool (VStr tool) = true ->
  fetch (POST body) env =
    answer (mcp_reply (prop body "id")) (tool_text true tool (tool_argument body) env).
Proof.
  intros Hrpc Hm Hn Hk. apply fetch_fmap. rewrite (fetch_try_jsonrpc _ _ Hrpc).
  unfold tool_name in Hn.
  assert (Ht : truthy (prop (prop body "params") "name") = true).
  { rewrite Hn. unfold known_tool in Hk. destruct tool; [discriminate|reflexivity]. }
  rewrite (handleJsonRpc_tools_call _ _ Hm Ht). cbv zeta. rewrite Hn.
  unfold known_tool in Hk. cbn [is_string] in *. unfold tool_text, tool_argument.
  destruct (String.eqb tool "list_r2_files").
  { rewrite call_list_r2_files_text, prop_or_else_empty. reflexivity. }
  destruct (String.eqb tool "read_r2_file").
  { rewrite call_read_r2_file_text, prop_or_else_empty. reflexivity. }
  destruct (String.eqb tool "search_vectors"); [|discriminate].
  rewrite call_search_vectors_text, !prop_or_else_empty. reflexivity.
Qed.

Lemma fetch_legacy_call (body : value) (env : Env) (tool : string) :
  is_jsonrpc body = false ->
  prop body "method" = VStr tool ->
  known_tool (VStr tool) = true ->
  fetch (POST body) env =
    answer legacy_reply (tool_text false tool (legacy_argument body) env).
Proof.
  intros Hrpc Hm Hk. apply fetch_fmap. rewrite (fetch_try_legacy _ _ Hrpc), Hm.
  unfold known_tool in Hk. cbn [is_string] in *. unfold tool_text, legacy_argument.
  destruct (String.eqb tool "list_r2_files").
  { apply legacy_list_r2_files_text. }
  destruct (String.eqb tool "read_r2_file").
  { apply legacy_read_r2_file_text. }
  destruct (String.eqb tool "search_vectors"); [|discriminate].
  apply legacy_search_vectors_text.
Qed.

(* ===================================================================== *)
(** ** Facts about the texts *)
(* ===================================================================== *)

Lemma JSON_stringify_array (elems : list value) (space : nat) :
  exists s, JSON_stringify (VArr elems) space = VStr s.
Proof. unfold JSON_stringify. cbn. eexists. reflexivity. Qed.

Lemma searchVectors_array (env : Env) (query topK : value) calls v :
  searchVectors env query topK = (calls, Return v) -> exists records, v = VArr records.
Proof.
  unfold searchVectors.
  destruct (VECTOR_INDEX env) as [index|]; [|discriminate].
  destruct (AI env) as [ai|]; [|discriminate].
  unfold bind at 1, call at 1.
  destruct (AI_run ai _ _) as [response|e]; [|discriminate].
  destruct (negb (truthy _) || negb (isArray _)); [discriminate|].
  unfold bind at 1, call at 1.
  destruct (VECTOR_INDEX_query index _ _) as [vectorResult|e]; [|discriminate].
  unfold member. destruct (nullish vectorResult); [discriminate|].
  cbn [bind ret app].
  destruct (or_else _ (VArr [])) as [| |b|n|s|ms|ps]; try discriminate.
  destruct (mapM match_record ms) as [calls' [records|e]]; [|discriminate].
  cbn. intros [= _ <-]. eexists. reflexivity.
Qed.

Lemma list_r2_files_text_string (path : value) (env : Env) calls t :
  list_r2_files_text path env = (calls, Return t) -> exists s, t = VStr s.
Proof.
  unfold list_r2_files_text, R2_list_objects.
  destruct (coalesce path (VStr "")); try discriminate.
  destruct (R2 env) as [bucket|]; [|discriminate].
  cbn. destruct (R2_list bucket _); [|discriminate].
  intros [= _ <-]. apply JSON_stringify_array.
Qed.

Lemma read_r2_file_text_string missing (path : value) (env : Env) calls t :
  read_r2_file_text missing path env = (calls, Return t) -> exists s, t = VStr s.
Proof.
  unfold read_r2_file_text, R2_get_object.
  destruct (truthy path); [|intros [= _ <-]; eexists; reflexivity].
  destruct (R2 env) as [bucket|]; [|discriminate].
  cbn. destruct (R2_get bucket path) as [[obj|]|e]; try discriminate.
  - destruct (text obj); [|discriminate]. intros [= _ <-]. eexists. reflexivity.
  - destruct (ToString path); [|discriminate]. intros [= _ <-]. eexists. reflexivity.
Qed.

(** The search tool never throws: its text is always there. *)
Lemma search_vectors_text_string missing (query topK : value) (env : Env) :
  exists calls s, search_vectors_text missing query topK env = (calls, Return (VStr s)).
Proof.
  unfold search_vectors_text.
  destruct (truthy query); [|do 2 eexists; reflexivity].
  destruct (searchVectors env query _) as [calls [matches|e]] eqn:E.
  - apply searchVectors_array in E as [records ->].
    destruct (JSON_stringify_array records 2) as [s ->]. do 2 eexists. reflexivity.
  - do 2 eexists. reflexivity.
Qed.

Lemma tool_text_string mcp (tool : string) arg (env : Env) calls t :
  tool_text mcp tool arg env = (calls, Return t) -> exists s, t = VStr s.
Proof.
  unfold tool_text.
  destruct (String.eqb tool "list_r2_files"); [apply list_r2_files_text_string|].
  destruct (String.eqb tool "read_r2_file"); [apply read_r2_file_text_string|].
  intros H.
  destruct (search_vectors_text_string
              (if mcp then "Error: missing 'query' argument" else "Error: missing 'query'")
              (arg "query") (arg "topK") env) as (calls' & s & E).
  rewrite E in H. injection H as _ <-. eexists. reflexivity.
Qed.

(* ===================================================================== *)
(** ** Every response is an envelope *)
(* ===================================================================== *)

Lemma encode_injective (e1 e2 : Envelope) : encode e1 = encode e2 -> e1 = e2.
Proof.
  destruct e1, e2; cbn; intros H; try discriminate;
    injection H; intros; subst; reflexivity.
Qed.

Lemma enveloped_jsonRpcResult (id result : value) : enveloped (jsonRpcResult id result 200).
Proof. repeat split. exists (JsonRpcResult id result). reflexivity. Qed.

Lemma enveloped_jsonRpcError (id : value) code msg : enveloped (jsonRpcError id code msg 200).
Proof. repeat split. exists (JsonRpcError id code msg). reflexivity. Qed.

Lemma enveloped_legacy (s : string) : enveloped (legacyJson (content (VStr s)) 200).
Proof. repeat split. exists (LegacyContent s). reflexivity. Qed.

Lemma enveloped_answer_mcp (id : value) (m : M value) :
  enveloped (snd (answer (mcp_reply id) m)).
Proof.
  destruct m as [calls [t|e]]; cbn.
  - apply enveloped_jsonRpcResult.
  - apply enveloped_jsonRpcError.
Qed.

Lemma enveloped_answer_legacy (m : M value) :
  (forall calls t, m = (calls, Return t) -> exists s, t = VStr s) ->
  enveloped (snd (answer legacy_reply m)).
Proof.
  intros H. destruct m as [calls [t|e]]; cbn.
  - destruct (H calls t eq_refl) as [s ->]. apply enveloped_legacy.
  - apply enveloped_jsonRpcError.
Qed.

Lemma known_tool_cases (name : value) :
  known_tool name = true ->
  exists tool, name = VStr tool.
Proof. destruct name; try discriminate. eexists. reflexivity. Qed.

(** The MCP handler answers an envelope, whatever the body. *)
Lemma enveloped_jsonrpc (body : value) (env : Env) :
  is_jsonrpc body = true -> enveloped (snd (fetch (POST body) env)).
Proof.
  intros Hrpc.
  destruct (is_string (prop body "method") "tools/call") eqn:Hcall.
  - apply is_string_true in Hcall.
    destruct (truthy (tool_name body)) eqn:Hname.
    + destruct (known_tool (tool_name body)) eqn:Hknown.
      * destruct (known_tool_cases _ Hknown) as [tool Htool]. rewrite Htool in Hknown.
        rewrite (fetch_tools_call body env tool Hrpc Hcall Htool Hknown).
        apply enveloped_answer_mcp.
      * destruct (ToString (tool_name body)) as [shown|] eqn:Hs.
        -- rewrite (unknown_tool body env shown Hrpc Hcall Hname Hknown Hs).
           apply enveloped_jsonRpcError.
        -- rewrite (unknown_tool_unprintable body env Hrpc Hcall Hname Hknown Hs).
           apply enveloped_jsonRpcError.
    + rewrite (missing_tool_name body env Hrpc Hcall Hname).
      apply enveloped_jsonRpcError.
  - destruct (known_method (prop body "method")) eqn:Hknown.
    + rewrite (fetch_of_return (POST body) env [] 
                 (jsonRpcResult (prop body "id")
                    (if is_string (prop body "method") "initialize"
                     then initialize_result else tools_list_result) 200)).
      * apply enveloped_jsonRpcResult.
      * rewrite (fetch_try_jsonrpc _ _ Hrpc). unfold handleJsonRpc.
        unfold known_method in Hknown. rewrite Hcall, orb_false_r in Hknown.
        destruct (is_string (prop body "method") "initialize"); [reflexivity|].
        cbn in Hknown. rewrite Hknown. reflexivity.
    + destruct (ToString (prop body "method")) as [shown|] eqn:Hs.
      * rewrite (unknown_method body env shown Hrpc Hknown Hs).
        apply enveloped_jsonRpcError.
      * rewrite (unknown_method_unprintable body env Hrpc Hknown Hs).
        apply enveloped_jsonRpcError.
Qed.

Lemma legacy_unknown_method (body : value) (env : Env) (shown : string) :
  is_jsonrpc body = false ->
  known_tool (prop body "method") = false ->
  ToString (prop body "method") = Some shown ->
  fetch (POST body) env =
    ([], legacyJson (content (VStr ("Unknown method: " ++ shown))) 200).
Proof.
  intros Hrpc Hk Hs. apply fetch_of_return. rewrite (fetch_try_legacy _ _ Hrpc).
  unfold known_tool in Hk. apply orb_false_iff in Hk as [Hk Hsv].
  apply orb_false_iff in Hk as [Hl Hr]. rewrite Hl, Hr, Hsv.
  rewrite (interpolate_some _ _ Hs). reflexivity.
Qed.

Lemma legacy_unknown_method_unprintable (body : value) (env : Env) :
  is_jsonrpc body = false ->
  known_tool (prop body "method") = false ->
  ToString (prop body "method") = None ->
  fetch (POST body) env =
    ([], jsonRpcError VNull (-32603) ("Internal error: " ++ no_string_form) 200).
Proof.
  intros Hrpc Hk Hs. apply fetch_of_throw with (err := TypeError no_string_form).
  rewrite (fetch_try_legacy _ _ Hrpc).
  unfold known_tool in Hk. apply orb_false_iff in Hk as [Hk Hsv].
  apply orb_false_iff in Hk as [Hl Hr]. rewrite Hl, Hr, Hsv.
  rewrite (interpolate_none _ Hs). reflexivity.
Qed.

(** The legacy dispatch answers an envelope, whatever the body. *)
Lemma enveloped_legacy_call (body : value) (env : Env) :
  is_jsonrpc body = false -> enveloped (snd (fetch (POST body) env)).
Proof.
  intros Hrpc. destruct (known_tool (prop body "method")) eqn:Hknown.
  - destruct (known_tool_cases _ Hknown) as [tool Htool]. rewrite Htool in Hknown.
    rewrite (fetch_legacy_call body env tool Hrpc Htool Hknown).
    apply enveloped_answer_legacy. intros calls t. apply tool_text_string.
  - destruct (ToString (prop body "method")) as [shown|] eqn:Hs.
    + rewrite (legacy_unknown_method body env shown Hrpc Hknown Hs).
      apply enveloped_legacy.
    + rewrite (legacy_unknown_method_unprintable body env Hrpc Hknown Hs).
      apply enveloped_jsonRpcError.
Qed.

Lemma request_eta (request : Request) :
  request = {| method := method request; json := json request |}.
Proof. destruct request; reflexivity. Qed.

(** C9. Every response of the dispatcher has HTTP status 200. The answer to
    a GET is the plain-text health check; every other answer is JSON whose
    body is exactly one of the three envelopes (JSON-RPC result, JSON-RPC
    error with code and message, legacy content list). *)
Theorem every_response_is_an_envelope (request : Request) (env : Env) :
  let response := snd (fetch request env) in
  status response = 200 /\
  (method request = "GET" -> response = health_check) /\
  (method request <> "GET" ->
   headers response = json_headers /\
   exists! e : Envelope, body response = BodyJSON (encode e)).
Proof.
  cbv zeta.
  assert (Hcases : (method request = "GET" /\ snd (fetch request env) = health_check) \/
                   (method request <> "GET" /\ enveloped (snd (fetch request env)))).
  { destruct (String.eqb_spec (method request) "GET") as [Hget|Hget].
    - left. split; [exact Hget|]. unfold fetch, fetch_try.
      rewrite Hget. reflexivity.
    - right. split; [exact Hget|].
      destruct (String.eqb_spec (method request) "POST") as [Hpost|Hpost].
      + destruct (json request) as [body|e] eqn:Hjson.
        * assert (Hreq : request = POST body).
          { rewrite (request_eta request), Hpost, Hjson. reflexivity. }
          rewrite Hreq. destruct (is_jsonrpc body) eqn:Hrpc.
          -- apply enveloped_jsonrpc; exact Hrpc.
          -- apply enveloped_legacy_call; exact Hrpc.
        * rewrite (fetch_of_return request env []
                     (jsonRpcError VNull (-32700) "Parse error: invalid JSON" 200)).
          -- apply enveloped_jsonRpcError.
          -- unfold fetch_try. rewrite Hpost, Hjson. reflexivity.
      + rewrite (fetch_of_return request env []
                   (jsonRpcError VNull (-32600)
                      "Invalid request method (POST required)" 200)).
        * apply enveloped_jsonRpcError.
        * unfold fetch_try.
          destruct (String.eqb_spec (method request) "GET"); [contradiction|].
          destruct (String.eqb_spec (method request) "POST"); [contradiction|].
          reflexivity. }
  destruct Hcases as [[Hget Hr] | [Hget (Hs & Hh & e & He)]].
  - rewrite Hr. split; [reflexivity|]. split; [reflexivity|]. contradiction.
  - split; [exact Hs|]. split; [contradiction|]. intros _. split; [exact Hh|].
    exists e. split; [exact He|].
    intros e' He'. apply encode_injective. congruence.
Qed.

Lemma every_response_is_an_envelope_witness :
  snd (fetch {| method := "GET"; json := Return VNull |} no_bindings) = health_check /\
  exists! e : Envelope,
    body (snd (fetch (legacy_call (VStr "list_r2_files") (VObj [("path", VStr "logs")]))
                     failing_env)) = BodyJSON (encode e).
Proof.
  split.
  - apply (every_response_is_an_envelope
             {| method := "GET"; json := Return VNull |} no_bindings). reflexivity.
  - apply (every_response_is_an_envelope
             (legacy_call (VStr "list_r2_files") (VObj [("path", VStr "logs")]))
             failing_env). discriminate.
Defined.

(* ===================================================================== *)
(** ** Storage failures *)
(* ===================================================================== *)

(** A call of a tool on either path, from its text. *)
Lemma fetch_calls_tool (body : value) (env : Env) (tool arg : string) (v : value) :
  calls_tool body tool arg v ->
  known_tool (VStr tool) = true ->
  exists mcp reply read,
    fetch (POST body) env = answer reply (tool_text mcp tool read env) /\
    read arg = v.
Proof.
  intros [(Hrpc & Hm & Hn & Ha) | (Hrpc & Hm & Ha)] Hk.
  - exists true, (mcp_reply (prop body "id")), (tool_argument body).
    split; [apply fetch_tools_call; assumption | exact Ha].
  - exists false, legacy_reply, (legacy_argument body).
    split; [apply fetch_legacy_call; assumption | exact Ha].
Qed.

Lemma carries_internal_error (err : Error) :
  carries (jsonRpcError VNull (-32603) ("Internal error: " ++ message err) 200)
          (JsonRpcError VNull (-32603) ("Internal error: " ++ message err)).
Proof. apply carries_jsonRpcError. Qed.

(** The answer to a text computation that throws. *)
Lemma answer_throw_carries reply (m : M value) calls err :
  m = (calls, Throw err) ->
  fst (answer reply m) = calls /\
  carries (snd (answer reply m))
          (JsonRpcError VNull (-32603) ("Internal error: " ++ message err)).
Proof. intros ->. split; [reflexivity | apply carries_internal_error]. Qed.

(** The three ways storage fails a storage tool. *)
Lemma list_r2_files_text_throws (path : value) (p : string) (env : Env) bucket err :
  R2 env = Some bucket ->
  coalesce path (VStr "") = VStr p ->
  R2_list bucket (normalize_prefix p) = Throw err ->
  list_r2_files_text path env = ([R2_list_call (normalize_prefix p)], Throw err).
Proof.
  intros HR2 Hp Hlist. unfold list_r2_files_text, R2_list_objects.
  rewrite Hp, HR2. cbn. rewrite Hlist. reflexivity.
Qed.

Lemma read_r2_file_text_get_throws missing (path : value) (env : Env) bucket err :
  R2 env = Some bucket -> truthy path = true ->
  R2_get bucket path = Throw err ->
  read_r2_file_text missing path env = ([R2_get_call path], Throw err).
Proof.
  intros HR2 Hp Hget. unfold read_r2_file_text, R2_get_object.
  rewrite Hp, HR2. cbn. rewrite Hget. reflexivity.
Qed.

Lemma read_r2_file_text_unreadable missing (path : value) (env : Env) bucket obj err :
  R2 env = Some bucket -> truthy path = true ->
  R2_get bucket path = Return (Some obj) -> text obj = Throw err ->
  read_r2_file_text missing path env =
    ([R2_get_call path; Object_text_call], Throw err).
Proof.
  intros HR2 Hp Hget Htext. unfold read_r2_file_text, R2_get_object.
  rewrite Hp, HR2. cbn. rewrite Hget, Htext. reflexivity.
Qed.

Lemma read_r2_file_text_unprintable missing (path : value) (env : Env) bucket :
  R2 env = Some bucket -> truthy path = true ->
  R2_get bucket path = Return None -> ToString path = None ->
  read_r2_file_text missing path env =
    ([R2_get_call path], Throw (TypeError no_string_form)).
Proof.
  intros HR2 Hp Hget Hs. unfold read_r2_file_text, R2_get_object.
  rewrite Hp, HR2. cbn. rewrite Hget, Hs. reflexivity.
Qed.

Lemma storage_failure_of_list (body : value) (env : Env) bucket
      (path : value) (p : string) err :
  R2 env = Some bucket ->
  calls_tool body "list_r2_files" "path" path ->
  coalesce path (VStr "") = VStr p ->
  R2_list bucket (normalize_prefix p) = Throw err ->
  fst (fetch (POST body) env) = [R2_list_call (normalize_prefix p)] /\
  carries (snd (fetch (POST body) env))
          (JsonRpcError VNull (-32603) ("Internal error: " ++ message err)).
Proof.
  intros HR2 Hcall Hp Hlist.
  destruct (fetch_calls_tool body env _ _ _ Hcall eq_refl)
    as (mcp & reply & read & -> & Hread).
  apply answer_throw_carries. unfold tool_text. cbn [String.eqb Ascii.eqb Bool.eqb].
  rewrite Hread. exact (list_r2_files_text_throws path p env bucket err HR2 Hp Hlist).
Qed.

Lemma storage_failure_of_get (body : value) (env : Env) bucket (path : value) err :
  R2 env = Some bucket ->
  calls_tool body "read_r2_file" "path" path ->
  truthy path = true ->
  R2_get bucket path = Throw err ->
  fst (fetch (POST body) env) = [R2_get_call path] /\
  carries (snd (fetch (POST body) env))
          (JsonRpcError VNull (-32603) ("Internal error: " ++ message err)).
Proof.
  intros HR2 Hcall Hp Hget.
  destruct (fetch_calls_tool body env _ _ _ Hcall eq_refl)
    as (mcp & reply & read & -> & Hread).
  apply answer_throw_carries. unfold tool_text. cbn [String.eqb Ascii.eqb Bool.eqb].
  rewrite Hread. exact (read_r2_file_text_get_throws _ path env bucket err HR2 Hp Hget).
Qed.

Lemma storage_failure_of_text (body : value) (env : Env) bucket (path : value) obj err :
  R2 env = Some bucket ->
  calls_tool body "read_r2_file" "path" path ->
  truthy path = true ->
  R2_get bucket path = Return (Some obj) ->
  text obj = Throw err ->
  fst (fetch (POST body) env) = [R2_get_call path; Object_text_call] /\
  carries (snd (fetch (POST body) env))
          (JsonRpcError VNull (-32603) ("Internal error: " ++ message err)).
Proof.
  intros HR2 Hcall Hp Hget Htext.
  destruct (fetch_calls_tool body env _ _ _ Hcall eq_refl)
    as (mcp & reply & read & -> & Hread).
  apply answer_throw_carries. unfold tool_text. cbn [String.eqb Ascii.eqb Bool.eqb].
  rewrite Hread.
  exact (read_r2_file_text_unreadable _ path env bucket obj err HR2 Hp Hget Htext).
Qed.

Lemma calls_tool_mcp (body : value) (tool arg : string) :
  is_jsonrpc body = true -> prop body "method" = VStr "tools/call" ->
  tool_name body = VStr tool ->
  calls_tool body tool arg (tool_argument body arg).
Proof. intros Hrpc Hm Hn. left. repeat split; assumption. Qed.

(* ===================================================================== *)
(** ** Exceptions *)
(* ===================================================================== *)

(** C3. An exception that is not caught in a Tool Executor is answered by
    the catch-all: HTTP status 200, a JSON-RPC error with code -32603, id
    null and the message "Internal error: " followed by the exception's
    message. This holds of any exception that leaves the handling path; of
    one that leaves the [list_r2_files] or the [read_r2_file] executor, on
    the MCP path or the legacy path; and so of a failure of [R2.list], of
    [R2.get] and of the object's [text()]. No exception leaves [fetch]: it
    answers a response for every request, and the calls made before the
    exception are the calls of the request. *)
Theorem uncaught_exception_is_internal_error
        (body : value) (env : Env) (err : Error) :
  let internal_error :=
    JsonRpcError VNull (-32603) ("Internal error: " ++ message err) in
  let id := prop body "id" in
  let args := or_else (prop (prop body "params") "arguments") empty_object in
  (forall request calls, fetch_try request env = (calls, Throw err) ->
   fst (fetch request env) = calls /\
   carries (snd (fetch request env)) internal_error) /\
  (forall calls,
     is_jsonrpc body = true -> prop body "method" = VStr "tools/call" ->
     tool_name body = VStr "list_r2_files" ->
     call_list_r2_files id args env = (calls, Throw err) ->
     fst (fetch (POST body) env) = calls /\
     carries (snd (fetch (POST body) env)) internal_error) /\
  (forall calls,
     is_jsonrpc body = true -> prop body "method" = VStr "tools/call" ->
     tool_name body = VStr "read_r2_file" ->
     call_read_r2_file id args env = (calls, Throw err) ->
     fst (fetch (POST body) env) = calls /\
     carries (snd (fetch (POST body) env)) internal_error) /\
  (forall calls,
     is_jsonrpc body = false -> prop body "method" = VStr "list_r2_files" ->
     legacy_list_r2_files (prop body "params") env = (calls, Throw err) ->
     fst (fetch (POST body) env) = calls /\
     carries (snd (fetch (POST body) env)) internal_error) /\
  (forall calls,
     is_jsonrpc body = false -> prop body "method" = VStr "read_r2_file" ->
     legacy_read_r2_file (prop body "params") env = (calls, Throw err) ->
     fst (fetch (POST body) env) = calls /\
     carries (snd (fetch (POST body) env)) internal_error) /\
  (forall bucket path p,
     R2 env = Some bucket -> calls_tool body "list_r2_files" "path" path ->
     coalesce path (VStr "") = VStr p ->
     R2_list bucket (normalize_prefix p) = Throw err ->
     fst (fetch (POST body) env) = [R2_list_call (normalize_prefix p)] /\
     carries (snd (fetch (POST body) env)) internal_error) /\
  (forall bucket path,
     R2 env = Some bucket -> calls_tool body "read_r2_file" "path" path ->
     truthy path = true -> R2_get bucket path = Throw err ->
     fst (fetch (POST body) env) = [R2_get_call path] /\
     carries (snd (fetch (POST body) env)) internal_error) /\
  (forall bucket path obj,
     R2 env = Some bucket -> calls_tool body "read_r2_file" "path" path ->
     truthy path = true -> R2_get bucket path = Return (Some obj) ->
     text obj = Throw err ->
     fst (fetch (POST body) env) = [R2_get_call path; Object_text_call] /\
     carries (snd (fetch (POST body) env)) internal_error).
Proof.
  cbv zeta.
  assert (Hthrow : forall request calls,
            fetch_try request env = (calls, Throw err) ->
            fst (fetch request env) = calls /\
            carries (snd (fetch request env))
                    (JsonRpcError VNull (-32603) ("Internal error: " ++ message err))).
  { intros request calls H.
    apply (fetch_carries _ _ _ _ _ (fetch_of_throw request env calls err H)).
    apply carries_internal_error. }
  split; [exact Hthrow|]. repeat match goal with |- _ /\ _ => split end.
  - intros calls Hrpc Hm Hn H. apply Hthrow.
    rewrite (fetch_try_jsonrpc _ _ Hrpc). unfold tool_name in Hn.
    rewrite handleJsonRpc_tools_call; [|exact Hm|rewrite Hn; reflexivity].
    cbv zeta. rewrite Hn. exact H.
  - intros calls Hrpc Hm Hn H. apply Hthrow.
    rewrite (fetch_try_jsonrpc _ _ Hrpc). unfold tool_name in Hn.
    rewrite handleJsonRpc_tools_call; [|exact Hm|rewrite Hn; reflexivity].
    cbv zeta. rewrite Hn. exact H.
  - intros calls Hrpc Hm H. apply Hthrow.
    rewrite (fetch_try_legacy _ _ Hrpc), Hm. exact H.
  - intros calls Hrpc Hm H. apply Hthrow.
    rewrite (fetch_try_legacy _ _ Hrpc), Hm. exact H.
  - intros bucket path p. apply storage_failure_of_list.
  - intros bucket path. apply storage_failure_of_get.
  - intros bucket path obj. apply storage_failure_of_text.
Qed.

Lemma uncaught_exception_is_internal_error_witness :
  (fst (fetch (tools_call (int 7) (VStr "list_r2_files") (VObj [("path", VStr "logs")]))
              failing_env) = [R2_list_call "logs/"] /\
   carries (snd (fetch (tools_call (int 7) (VStr "list_r2_files")
                          (VObj [("path", VStr "logs")])) failing_env))
           (JsonRpcError VNull (-32603) "Internal error: R2 unavailable")) /\
  (fst (fetch (legacy_call (VStr "read_r2_file") (VObj [("path", VStr "notes/a.txt")]))
              unreadable_env) = [R2_get_call (VStr "notes/a.txt"); Object_text_call] /\
   carries (snd (fetch (legacy_call (VStr "read_r2_file")
                          (VObj [("path", VStr "notes/a.txt")])) unreadable_env))
           (JsonRpcError VNull (-32603) "Internal error: stream closed")) /\
  (fst (fetch (legacy_call (VStr "read_r2_file") (VObj [("path", VStr "notes/a.txt")]))
              no_bindings) = [] /\
   carries (snd (fetch (legacy_call (VStr "read_r2_file")
                          (VObj [("path", VStr "notes/a.txt")])) no_bindings))
           (JsonRpcError VNull (-32603)
              "Internal error: Cannot read properties of undefined (reading 'get')")).
Proof.
  split; [|split].
  - destruct (uncaught_exception_is_internal_error
                (VObj [("jsonrpc", VStr "2.0"); ("id", int 7);
                       ("method", VStr "tools/call");
                       ("params", VObj [("name", VStr "list_r2_files");
                                        ("arguments", VObj [("path", VStr "logs")])])])
                failing_env (mkError "R2 unavailable"))
      as (_ & Hlist & _).
    apply Hlist; reflexivity.
  - destruct (uncaught_exception_is_internal_error
                (VObj [("method", VStr "read_r2_file");
                       ("params", VObj [("path", VStr "notes/a.txt")])])
                unreadable_env (mkError "stream closed"))
      as (_ & _ & _ & _ & _ & _ & _ & Htext).
    apply (Htext unreadable_bucket (VStr "notes/a.txt")
                 {| text := Throw (mkError "stream closed") |});
      try reflexivity.
    right. repeat split.
  - destruct (uncaught_exception_is_internal_error
                (VObj [("method", VStr "read_r2_file");
                       ("params", VObj [("path", VStr "notes/a.txt")])])
                no_bindings
                (TypeError "Cannot read properties of undefined (reading 'get')"))
      as (_ & _ & _ & _ & Hread & _).
    apply Hread; reflexivity.
Defined.

(* ===================================================================== *)
(** ** read_r2_file *)
(* ===================================================================== *)





(* ===================================================================== *)
(** ** list_r2_files: the prefix *)
(* ===================================================================== *)

Lemma normalize_prefix_fixed (p : string) :
  normalize_prefix p = "" \/ endsWith (normalize_prefix p) "/" = true.
Proof.
  unfold normalize_prefix.
  destruct (String.eqb p "" || String.eqb p "/"); [left; reflexivity|].
  destruct (endsWith p "/") eqn:E; right; [exact E | apply endsWith_append].
Qed.

Lemma normalize_prefix_idempotent (p : string) :
  normalize_prefix (normalize_prefix p) = normalize_prefix p.
Proof.
  destruct (normalize_prefix_fixed p) as [-> | H]; [reflexivity|].
  unfold normalize_prefix at 1. rewrite H.
  destruct (String.eqb _ "" || String.eqb _ "/") eqn:E; [|reflexivity].
  apply orb_true_iff in E as [E|E]; apply String.eqb_eq in E.
  - symmetry. exact E.
  - (* the normal form is never "/" *)
    exfalso. revert E. unfold normalize_prefix.
    destruct (String.eqb p "" || String.eqb p "/") eqn:Hroot; [discriminate|].
    apply orb_false_iff in Hroot as [Hempty Hslash].
    destruct (endsWith p "/").
    + intros ->. discriminate.
    + destruct p as [|c [|c' p']]; cbn; try discriminate.
Qed.

Lemma list_r2_files_text_calls (path : value) (p : string) (env : Env) bucket reply :
  R2 env = Some bucket ->
  coalesce path (VStr "") = VStr p ->
  fst (answer reply (list_r2_files_text path env)) = [R2_list_call (normalize_prefix p)].
Proof.
  intros HR2 Hp. unfold list_r2_files_text, R2_list_objects. rewrite Hp, HR2.
  cbn. destruct (R2_list bucket (normalize_prefix p)); reflexivity.
Qed.

(** C4. The prefix [list_r2_files] asks storage for. With the path omitted
    (undefined, or null), "" or "/" it is the empty prefix; "logs" gives "logs/"; "logs/" stays
    "logs/"; normalizing twice is normalizing once; and the legacy call and
    the MCP call ask for the same prefix, [normalize_prefix] of the path. *)
Theorem list_r2_files_prefix (body : value) (env : Env) (bucket : R2Bucket) :
  R2 env = Some bucket ->
  (normalize_prefix "" = "" /\ normalize_prefix "/" = "" /\
   normalize_prefix "logs" = "logs/" /\ normalize_prefix "logs/" = "logs/") /\
  (forall p, normalize_prefix (normalize_prefix p) = normalize_prefix p) /\
  (is_jsonrpc body = true -> prop body "method" = VStr "tools/call" ->
   tool_name body = VStr "list_r2_files" ->
   (nullish (tool_argument body "path") = true ->
    fst (fetch (POST body) env) = [R2_list_call ""]) /\
   (forall p, tool_argument body "path" = VStr p ->
    fst (fetch (POST body) env) = [R2_list_call (normalize_prefix p)])) /\
  (is_jsonrpc body = false -> prop body "method" = VStr "list_r2_files" ->
   (nullish (legacy_argument body "path") = true ->
    fst (fetch (POST body) env) = [R2_list_call ""]) /\
   (forall p, legacy_argument body "path" = VStr p ->
    fst (fetch (POST body) env) = [R2_list_call (normalize_prefix p)])).
Proof.
  intros HR2. split; [repeat split|]. split; [exact normalize_prefix_idempotent|].
  split.
  - intros Hrpc Hm Hn.
    rewrite (fetch_tools_call body env "list_r2_files" Hrpc Hm Hn eq_refl).
    unfold tool_text. cbn [String.eqb Ascii.eqb Bool.eqb]. split.
    + intros Hp. apply (list_r2_files_text_calls _ "" env bucket _ HR2).
      unfold coalesce. rewrite Hp. reflexivity.
    + intros p Hp. apply (list_r2_files_text_calls _ p env bucket _ HR2).
      rewrite Hp. reflexivity.
  - intros Hrpc Hm.
    rewrite (fetch_legacy_call body env "list_r2_files" Hrpc Hm eq_refl).
    unfold tool_text. cbn [String.eqb Ascii.eqb Bool.eqb]. split.
    + intros Hp. apply (list_r2_files_text_calls _ "" env bucket _ HR2).
      unfold coalesce. rewrite Hp. reflexivity.
    + intros p Hp. apply (list_r2_files_text_calls _ p env bucket _ HR2).
      rewrite Hp. reflexivity.
Qed.

Lemma list_r2_files_prefix_witness :
  fst (fetch (tools_call (int 5) (VStr "list_r2_files") (VObj [("path", VStr "logs")]))
             example_env) = [R2_list_call "logs/"] /\
  fst (fetch (legacy_call (VStr "list_r2_files") (VObj [("path", VStr "/")]))
             example_env) = [R2_list_call ""].
Proof.
  split.
  - destruct (list_r2_files_prefix
                (VObj [("jsonrpc", VStr "2.0"); ("id", int 5);
                       ("method", VStr "tools/call");
                       ("params", VObj [("name", VStr "list_r2_files");
                                        ("arguments", VObj [("path", VStr "logs")])])])
                example_env logs_bucket eq_refl)
      as (_ & _ & Hmcp & _).
    destruct (Hmcp eq_refl eq_refl eq_refl) as (_ & Hpath).
    apply (Hpath "logs"). reflexivity.
  - destruct (list_r2_files_prefix
                (VObj [("method", VStr "list_r2_files");
                       ("params", VObj [("path", VStr "/")])])
                example_env logs_bucket eq_refl)
      as (_ & _ & _ & Hlegacy).
    destruct (Hlegacy eq_refl eq_refl) as (_ & Hpath).
    apply (Hpath "/"). reflexivity.
Defined.

(* ===================================================================== *)
(** ** The search adapter *)
(* ===================================================================== *)

Lemma match_record_spec (m : value) :
  nullish m = false -> match_record m = ([], Return (Match_Record m)).
Proof.
  intros H. unfold match_record, member, Match_Record. rewrite H.
  cbn. rewrite !opt_prop_prop. reflexivity.
Qed.

Lemma mapM_match_record (ms : list value) :
  Forall (fun m => nullish m = false) ms ->
  mapM match_record ms = ([], Return (map Match_Record ms)).
Proof.
  induction 1 as [|m ms Hm _ IH]; [reflexivity|].
  cbn [mapM map]. rewrite (match_record_spec m Hm), IH. reflexivity.
Qed.

(** [searchVectors] up to the choice of the match list. *)
Lemma searchVectors_reaches_index (env : Env) index ai (query topK : value)
      response embedding vectorResult :
  VECTOR_INDEX env = Some index -> AI env = Some ai ->
  AI_run ai "@cf/qwen/qwen3-embedding-0.6b" (VObj [("text", VArr [query])])
    = Return response ->
  opt_index0 (prop response "data") = VArr embedding ->
  VECTOR_INDEX_query index (VArr embedding) (VObj [("topK", topK)])
    = Return vectorResult ->
  nullish vectorResult = false ->
  forall ms,
    or_else (or_else (prop vectorResult "matches") (prop vectorResult "results"))
            (VArr []) = VArr ms ->
    Forall (fun m => nullish m = false) ms ->
    searchVectors env query topK =
      (search_calls query topK (VArr embedding), Return (VArr (map Match_Record ms))).
Proof.
  intros Hindex Hai Hrun Hemb Hquery Hvr ms Hms Hall.
  unfold searchVectors. rewrite Hindex, Hai.
  unfold bind at 1, call at 1. rewrite Hrun, opt_prop_prop, Hemb.
  cbn [truthy isArray negb orb].
  unfold bind at 1, call at 1. rewrite Hquery.
  unfold member. rewrite Hvr. cbn [bind ret app]. rewrite Hms.
  rewrite (mapM_match_record ms Hall). reflexivity.
Qed.

(** C5. [searchVectors], once the embedding is extracted and the index has
    answered: the result is the list of Match Records of the raw matches,
    taken from the field [matches], or from [results] when [matches] is
    absent, or empty when both are absent (no error). A Match Record passes
    [id] and [score] through, takes [source] and [text] from the nested
    metadata and carries the metadata mapping, the empty mapping by default.
    For the embedding [0.1, 0.2] and the index answer
    [{id: "a", score: 0.9, metadata: {source: "s", text: "t"}}] the result is
    [{id: "a", score: 0.9, source: "s", text: "t",
      metadata: {source: "s", text: "t"}}]. *)
Theorem searchVectors_normalizes_matches :
  (forall (env : Env) index ai (query topK response vectorResult : value) embedding,
     VECTOR_INDEX env = Some index -> AI env = Some ai ->
     AI_run ai "@cf/qwen/qwen3-embedding-0.6b" (VObj [("text", VArr [query])])
       = Return response ->
     opt_index0 (prop response "data") = VArr embedding ->
     VECTOR_INDEX_query index (VArr embedding) (VObj [("topK", topK)])
       = Return vectorResult ->
     nullish vectorResult = false ->
     let returns ms :=
       searchVectors env query topK =
         (search_calls query topK (VArr embedding),
          Return (VArr (map Match_Record ms))) in
     (forall ms, Forall (fun m => nullish m = false) ms ->
        prop vectorResult "matches" = VArr ms -> returns ms) /\
     (forall ms, Forall (fun m => nullish m = false) ms ->
        truthy (prop vectorResult "matches") = false ->
        prop vectorResult "results" = VArr ms -> returns ms) /\
     (truthy (prop vectorResult "matches") = false ->
      truthy (prop vectorResult "results") = false -> returns [])) /\
  (forall id score metadata,
     Match_Record (VObj [("id", id); ("score", score); ("metadata", VObj metadata)]) =
       VObj [("id", id); ("score", score);
             ("source", assoc "source" metadata); ("text", assoc "text" metadata);
             ("metadata", VObj metadata)]) /\
  (forall id score,
     Match_Record (VObj [("id", id); ("score", score)]) =
       VObj [("id", id); ("score", score);
             ("source", VUndefined); ("text", VUndefined); ("metadata", VObj [])]) /\
  searchVectors example_env (VStr "q") (int 5) =
    (search_calls (VStr "q") (int 5) (VArr [VNum (Dec 1 (-1)); VNum (Dec 2 (-1))]),
     Return (VArr [VObj [("id", VStr "a"); ("score", VNum (Dec 9 (-1)));
                         ("source", VStr "s"); ("text", VStr "t");
                         ("metadata", VObj [("source", VStr "s"); ("text", VStr "t")])]])).
Proof.
  split; [|split; [|split]]; try reflexivity.
  intros env index ai query topK response vectorResult embedding
         Hindex Hai Hrun Hemb Hquery Hvr returns.
  pose proof (searchVectors_reaches_index env index ai query topK response embedding
                vectorResult Hindex Hai Hrun Hemb Hquery Hvr) as H.
  unfold returns. split; [|split].
  - intros ms Hall Hm. apply H; [|exact Hall]. rewrite Hm. reflexivity.
  - intros ms Hall Hm Hr. apply H; [|exact Hall].
    unfold or_else at 2. rewrite Hm, Hr. reflexivity.
  - intros Hm Hr. apply (H []); [|constructor].
    unfold or_else. rewrite Hm, Hr. reflexivity.
Qed.

Lemma searchVectors_normalizes_matches_witness :
  searchVectors
    {| R2 := None;
       VECTOR_INDEX := Some {| VECTOR_INDEX_query := fun _ _ =>
                                 Return (VObj [("results", VArr [example_match])]) |};
       AI := Some example_ai |}
    (VStr "q") (int 3) =
    (search_calls (VStr "q") (int 3) (VArr [VNum (Dec 1 (-1)); VNum (Dec 2 (-1))]),
     Return (VArr (map Match_Record [example_match]))).
Proof.
  destruct searchVectors_normalizes_matches as (Hgeneral & _).
  destruct (Hgeneral
              {| R2 := None;
                 VECTOR_INDEX := Some {| VECTOR_INDEX_query := fun _ _ =>
                                   Return (VObj [("results", VArr [example_match])]) |};
                 AI := Some example_ai |}
              _ _ (VStr "q") (int 3) _ _ [VNum (Dec 1 (-1)); VNum (Dec 2 (-1))]
              eq_refl eq_refl eq_refl eq_refl eq_refl eq_refl)
    as (_ & Hresults & _).
  apply Hresults.
  - constructor; [reflexivity | constructor].
  - reflexivity.
  - reflexivity.
Defined.

(* ===================================================================== *)
(** ** Failures during tool execution *)
(* ===================================================================== *)

Lemma jsonRpcError_is_not_a_result (id id' result : value) code msg :
  jsonRpcError id code msg 200 <> jsonRpcResult id' result 200.
Proof. unfold jsonRpcError, jsonRpcResult. intros H. discriminate H. Qed.

(** Against C2: with storage down, [tools/call] of [list_r2_files] and of
    [read_r2_file] are answered with the JSON-RPC error -32603, and not with
    a JSON-RPC result; and so is [read_r2_file] when the object is found but
    its text cannot be read. *)
Lemma storage_failure_is_a_jsonrpc_error :
  snd (fetch (tools_call (int 7) (VStr "list_r2_files") (VObj [("path", VStr "logs")]))
             failing_env)
    = jsonRpcError VNull (-32603) "Internal error: R2 unavailable" 200 /\
  snd (fetch (tools_call (int 8) (VStr "read_r2_file") (VObj [("path", VStr "a.txt")]))
             failing_env)
    = jsonRpcError VNull (-32603) "Internal error: R2 unavailable" 200 /\
  ~ (exists id result,
       snd (fetch (tools_call (int 7) (VStr "list_r2_files")
                     (VObj [("path", VStr "logs")])) failing_env)
         = jsonRpcResult id result 200) /\
  ~ (exists id result,
       snd (fetch (tools_call (int 8) (VStr "read_r2_file")
                     (VObj [("path", VStr "a.txt")])) failing_env)
         = jsonRpcResult id result 200) /\
  carries (snd (fetch (tools_call (int 7) (VStr "list_r2_files")
                         (VObj [("path", VStr "logs")])) failing_env))
          (JsonRpcError VNull (-32603) "Internal error: R2 unavailable") /\
  carries (snd (fetch (tools_call (int 8) (VStr "read_r2_file")
                         (VObj [("path", VStr "a.txt")])) failing_env))
          (JsonRpcError VNull (-32603) "Internal error: R2 unavailable") /\
  carries (snd (fetch (tools_call (int 8) (VStr "read_r2_file")
                         (VObj [("path", VStr "a.txt")])) unreadable_env))
          (JsonRpcError VNull (-32603) "Internal error: stream closed") /\
  ~ (exists id text,
       carries (snd (fetch (tools_call (int 8) (VStr "read_r2_file")
                              (VObj [("path", VStr "a.txt")])) unreadable_env))
               (JsonRpcResult id text)).
Proof.
  assert (Hl : snd (fetch (tools_call (int 7) (VStr "list_r2_files")
                             (VObj [("path", VStr "logs")])) failing_env)
               = jsonRpcError VNull (-32603) "Internal error: R2 unavailable" 200)
    by reflexivity.
  assert (Hr : snd (fetch (tools_call (int 8) (VStr "read_r2_file")
                             (VObj [("path", VStr "a.txt")])) failing_env)
               = jsonRpcError VNull (-32603) "Internal error: R2 unavailable" 200)
    by reflexivity.
  assert (Ht : carries (snd (fetch (tools_call (int 8) (VStr "read_r2_file")
                                      (VObj [("path", VStr "a.txt")])) unreadable_env))
                       (JsonRpcError VNull (-32603) "Internal error: stream closed"))
    by (repeat split).
  rewrite Hl, Hr. split; [reflexivity|]. split; [reflexivity|]. split; [|split].
  - intros (id & result & H). exact (jsonRpcError_is_not_a_result _ _ _ _ _ H).
  - intros (id & result & H). exact (jsonRpcError_is_not_a_result _ _ _ _ _ H).
  - split; [apply carries_jsonRpcError|]. split; [apply carries_jsonRpcError|].
    split; [exact Ht|].
    intros (id & text & (_ & _ & H)). destruct Ht as (_ & _ & H').
    rewrite H' in H. discriminate H.
Qed.

Lemma search_vectors_text_caught missing (query topK : value) (env : Env) calls e :
  truthy query = true ->
  searchVectors env query (coalesce topK (int 5)) = (calls, Throw e) ->
  search_vectors_text missing query topK env =
    (calls, Return (VStr ("Error running search_vectors: " ++ message e))).
Proof. intros Hq H. unfold search_vectors_text. rewrite Hq, H. reflexivity. Qed.

(** C2, amended. On [tools/call]: every answer of [search_vectors] is a
    JSON-RPC result with a text, and a failure thrown by the search adapter
    is caught in the executor and answered as the result text
    "Error running search_vectors: <message>". A failure thrown by the
    storage collaborator during [list_r2_files] or [read_r2_file] (by
    [R2.list], by [R2.get], or by the object's [text()]) is not caught in
    the executor: the catch-all answers it with the JSON-RPC error -32603,
    id null, "Internal error: <message>". *)
Theorem tool_failures (body : value) (env : Env) :
  is_jsonrpc body = true ->
  prop body "method" = VStr "tools/call" ->
  let id := prop body "id" in
  let internal_error e :=
    JsonRpcError VNull (-32603) ("Internal error: " ++ message e) in
  (tool_name body = VStr "search_vectors" ->
   (exists s,
      carries (snd (fetch (POST body) env)) (JsonRpcResult id (text_content s))) /\
   (forall calls e,
      truthy (tool_argument body "query") = true ->
      searchVectors env (tool_argument body "query")
                    (coalesce (tool_argument body "topK") (int 5)) = (calls, Throw e) ->
      fst (fetch (POST body) env) = calls /\
      carries (snd (fetch (POST body) env))
              (JsonRpcResult id
                 (text_content ("Error running search_vectors: " ++ message e))))) /\
  (tool_name body = VStr "list_r2_files" ->
   forall bucket p e,
     R2 env = Some bucket ->
     coalesce (tool_argument body "path") (VStr "") = VStr p ->
     R2_list bucket (normalize_prefix p) = Throw e ->
     fst (fetch (POST body) env) = [R2_list_call (normalize_prefix p)] /\
     carries (snd (fetch (POST body) env)) (internal_error e)) /\
  (tool_name body = VStr "read_r2_file" ->
   forall bucket e,
     R2 env = Some bucket ->
     truthy (tool_argument body "path") = true ->
     R2_get bucket (tool_argument body "path") = Throw e ->
     fst (fetch (POST body) env) = [R2_get_call (tool_argument body "path")] /\
     carries (snd (fetch (POST body) env)) (internal_error e)) /\
  (tool_name body = VStr "read_r2_file" ->
   forall bucket obj e,
     R2 env = Some bucket ->
     truthy (tool_argument body "path") = true ->
     R2_get bucket (tool_argument body "path") = Return (Some obj) ->
     text obj = Throw e ->
     fst (fetch (POST body) env) =
       [R2_get_call (tool_argument body "path"); Object_text_call] /\
     carries (snd (fetch (POST body) env)) (internal_error e)).
Proof.
  intros Hrpc Hm id internal_error. unfold internal_error.
  split; [|split; [|split]].
  - intros Hn.
    rewrite (fetch_tools_call body env "search_vectors" Hrpc Hm Hn eq_refl).
    unfold tool_text. cbn [String.eqb Ascii.eqb Bool.eqb]. split.
    + destruct (search_vectors_text_string "Error: missing 'query' argument"
                  (tool_argument body "query") (tool_argument body "topK") env)
        as (calls & s & E).
      exists s. rewrite E. apply carries_tool_result.
    + intros calls e Hq H.
      rewrite (search_vectors_text_caught _ _ _ env calls e Hq H).
      split; [reflexivity | apply carries_tool_result].
  - intros Hn bucket p e HR2 Hp Hlist.
    exact (storage_failure_of_list body env bucket _ p e HR2
             (calls_tool_mcp body _ "path" Hrpc Hm Hn) Hp Hlist).
  - intros Hn bucket e HR2 Hp Hget.
    exact (storage_failure_of_get body env bucket _ e HR2
             (calls_tool_mcp body _ "path" Hrpc Hm Hn) Hp Hget).
  - intros Hn bucket obj e HR2 Hp Hget Htext.
    exact (storage_failure_of_text body env bucket _ obj e HR2
             (calls_tool_mcp body _ "path" Hrpc Hm Hn) Hp Hget Htext).
Qed.

Lemma tool_failures_witness :
  (fst (fetch (tools_call (int 9) (VStr "search_vectors") (VObj [("query", VStr "q")]))
              failing_env) = [] /\
   carries (snd (fetch (tools_call (int 9) (VStr "search_vectors")
                          (VObj [("query", VStr "q")])) failing_env))
           (JsonRpcResult (int 9)
              (text_content ("Error running search_vectors: " ++ missing_index_message)))) /\
  (fst (fetch (tools_call (int 7) (VStr "list_r2_files") (VObj [("path", VStr "logs")]))
              failing_env) = [R2_list_call "logs/"] /\
   carries (snd (fetch (tools_call (int 7) (VStr "list_r2_files")
                          (VObj [("path", VStr "logs")])) failing_env))
           (JsonRpcError VNull (-32603) "Internal error: R2 unavailable")) /\
  (fst (fetch (tools_call (int 8) (VStr "read_r2_file") (VObj [("path", VStr "a.txt")]))
              unreadable_env) = [R2_get_call (VStr "a.txt"); Object_text_call] /\
   carries (snd (fetch (tools_call (int 8) (VStr "read_r2_file")
                          (VObj [("path", VStr "a.txt")])) unreadable_env))
           (JsonRpcError VNull (-32603) "Internal error: stream closed")).
Proof.
  split; [|split].
  - destruct (tool_failures
                (VObj [("jsonrpc", VStr "2.0"); ("id", int 9);
                       ("method", VStr "tools/call");
                       ("params", VObj [("name", VStr "search_vectors");
                                        ("arguments", VObj [("query", VStr "q")])])])
                failing_env eq_refl eq_refl) as (Hsearch & _).
    destruct (Hsearch eq_refl) as (_ & Hcaught).
    apply (Hcaught [] (mkError missing_index_message)); reflexivity.
  - destruct (tool_failures
                (VObj [("jsonrpc", VStr "2.0"); ("id", int 7);
                       ("method", VStr "tools/call");
                       ("params", VObj [("name", VStr "list_r2_files");
                                        ("arguments", VObj [("path", VStr "logs")])])])
                failing_env eq_refl eq_refl) as (_ & Hlist & _).
    apply (Hlist eq_refl failing_bucket "logs" (mkError "R2 unavailable")); reflexivity.
  - destruct (tool_failures
                (VObj [("jsonrpc", VStr "2.0"); ("id", int 8);
                       ("method", VStr "tools/call");
                       ("params", VObj [("name", VStr "read_r2_file");
                                        ("arguments", VObj [("path", VStr "a.txt")])])])
                unreadable_env eq_refl eq_refl) as (_ & _ & _ & Htext).
    apply (Htext eq_refl unreadable_bucket
                 {| text := Throw (mkError "stream closed") |} (mkError "stream closed"));
      reflexivity.
Defined.

(* ===================================================================== *)
(** ** The legacy path and the MCP path *)
(* ===================================================================== *)






(* ===================================================================== *)
(** ** The handshake methods *)
(* ===================================================================== *)

Lemma fetch_initialize (body : value) (env : Env) :
  is_jsonrpc body = true ->
  prop body "method" = VStr "initialize" ->
  fetch (POST body) env = ([], jsonRpcResult (prop body "id") initialize_result 200).
Proof.
  intros Hrpc Hm. apply fetch_of_return. rewrite (fetch_try_jsonrpc _ _ Hrpc).
  unfold handleJsonRpc. rewrite Hm. reflexivity.
Qed.

Lemma fetch_tools_list (body : value) (env : Env) :
  is_jsonrpc body = true ->
  prop body "method" = VStr "tools/list" ->
  fetch (POST body) env = ([], jsonRpcResult (prop body "id") tools_list_result 200).
Proof.
  intros Hrpc Hm. apply fetch_of_return. rewrite (fetch_try_jsonrpc _ _ Hrpc).
  unfold handleJsonRpc. rewrite Hm. reflexivity.
Qed.



Lemma known_tool_advertised (name : value) :
  known_tool name = true <-> In name advertised_tools.
Proof.
  unfold known_tool. rewrite !orb_true_iff, !is_string_true.
  cbn. intuition congruence.
Qed.

Lemma answer_mcp_not_unknown (reply_id : value) (m : M value) (id : value) msg :
  ~ carries (snd (answer (mcp_reply reply_id) m)) (JsonRpcError id (-32601) msg).
Proof.
  destruct m as [calls [t|e]]; cbn; intros (_ & _ & H); discriminate H.
Qed.

(** X2. [tools/list] and [tools/call] stay in sync. [tools/list] answers its
    descriptors, a JSON-RPC result with the request's id, without calling a
    collaborator; the names it advertises are the three tool names; and a
    [tools/call] whose name is present (and has a string form, as every string
    has) is refused with the JSON-RPC error -32601 "Unknown tool: <name>"
    exactly when the name is not one of the advertised names. *)
Theorem advertised_tools_are_the_callable_tools (body : value) (env : Env) :
  is_jsonrpc body = true ->
  (prop body "method" = VStr "tools/list" ->
   fst (fetch (POST body) env) = [] /\
   carries (snd (fetch (POST body) env))
           (JsonRpcResult (prop body "id") tools_list_result)) /\
  advertised_tools =
    [VStr "list_r2_files"; VStr "read_r2_file"; VStr "search_vectors"] /\
  (forall shown,
     prop body "method" = VStr "tools/call" -> truthy (tool_name body) = true ->
     ToString (tool_name body) = Some shown ->
     (carries (snd (fetch (POST body) env))
              (JsonRpcError (prop body "id") (-32601) ("Unknown tool: " ++ shown))
      <-> ~ In (tool_name body) advertised_tools)).
Proof.
  intros Hrpc. split; [|split; [reflexivity|]].
  - intros Hm.
    apply (fetch_carries _ _ _ _ _ (fetch_tools_list body env Hrpc Hm)).
    apply carries_jsonRpcResult.
  - intros shown Hm Hn Hs. split.
    + intros Hcarries Hin. apply known_tool_advertised in Hin.
      destruct (known_tool_cases _ Hin) as [tool Htool]. rewrite Htool in Hin.
      rewrite (fetch_tools_call body env tool Hrpc Hm Htool Hin) in Hcarries.
      exact (answer_mcp_not_unknown _ _ _ _ Hcarries).
    + intros Hnot.
      assert (Hk : known_tool (tool_name body) = false).
      { destruct (known_tool (tool_name body)) eqn:Hk; [|reflexivity].
        exfalso. apply Hnot, known_tool_advertised, Hk. }
      rewrite (unknown_tool body env shown Hrpc Hm Hn Hk Hs).
      apply carries_jsonRpcError.
Qed.

Lemma advertised_tools_are_the_callable_tools_witness :
  carries (snd (fetch (tools_call (int 3) (VStr "list_r2_file") empty_object)
                      example_env))
          (JsonRpcError (int 3) (-32601) "Unknown tool: list_r2_file").
Proof.
  destruct (advertised_tools_are_the_callable_tools
              (VObj [("jsonrpc", VStr "2.0"); ("id", int 3);
                     ("method", VStr "tools/call");
                     ("params", VObj [("name", VStr "list_r2_file");
                                      ("arguments", empty_object)])])
              example_env eq_refl) as (_ & _ & Hcall).
  apply (Hcall "list_r2_file" eq_refl eq_refl eq_refl).
  cbn. intros [H|[H|[H|[]]]]; discriminate H.
Defined.

(* ===================================================================== *)
(** ** More on the search adapter *)
(* ===================================================================== *)

Lemma match_record_calls (m : value) : fst (match_record m) = [].
Proof. unfold match_record, member. destruct (nullish m); reflexivity. Qed.

Lemma mapM_match_record_calls (ms : list value) : fst (mapM match_record ms) = [].
Proof.
  induction ms as [|m ms IH]; [reflexivity|].
  cbn [mapM]. pose proof (match_record_calls m) as Hm.
  destruct (match_record m) as [calls [record|e]]; cbn in Hm; subst calls;
    [|reflexivity].
  unfold bind. destruct (mapM match_record ms) as [calls [records|e]];
    cbn in *; subst; reflexivity.
Qed.

Lemma match_record_return (m : value) calls record :
  match_record m = (calls, Return record) -> nullish m = false.
Proof.
  unfold match_record, member. destruct (nullish m); [discriminate|reflexivity].
Qed.

Lemma mapM_match_record_return (ms : list value) calls records :
  mapM match_record ms = (calls, Return records) ->
  Forall (fun m => nullish m = false) ms.
Proof.
  revert calls records. induction ms as [|m ms IH]; intros calls records H.
  - constructor.
  - cbn [mapM] in H.
    destruct (match_record m) as [calls1 [record|e]] eqn:Em; [|discriminate H].
    unfold bind in H.
    destruct (mapM match_record ms) as [calls2 [records'|e]] eqn:E;
      [|discriminate H].
    constructor; [exact (match_record_return _ _ _ Em) | exact (IH _ _ eq_refl)].
Qed.

(** Once the embedding is extracted the index is queried, with that
    embedding and the given [topK], whatever comes of it. *)
Lemma searchVectors_queries_index (env : Env) index ai (query topK : value)
      response embedding :
  VECTOR_INDEX env = Some index -> AI env = Some ai ->
  AI_run ai embedding_model (VObj [("text", VArr [query])]) = Return response ->
  opt_index0 (prop response "data") = VArr embedding ->
  fst (searchVectors env query topK) = search_calls query topK (VArr embedding).
Proof.
  intros Hindex Hai Hrun Hemb. unfold embedding_model in Hrun.
  unfold searchVectors. rewrite Hindex, Hai.
  unfold bind at 1, call at 1. rewrite Hrun, opt_prop_prop, Hemb.
  cbn [truthy isArray negb orb].
  unfold bind at 1, call at 1.
  destruct (VECTOR_INDEX_query index _ _) as [vectorResult|e]; [|reflexivity].
  unfold member. destruct (nullish vectorResult); [reflexivity|].
  cbn [bind ret app].
  destruct (or_else _ (VArr [])) as [| |b|n|s|ms|ps]; try reflexivity.
  pose proof (mapM_match_record_calls ms) as Hcalls.
  destruct (mapM match_record ms) as [calls [records|e]]; cbn in *; subst; reflexivity.
Qed.

Lemma not_array_no_embedding (embedding : value) :
  isArray embedding = false ->
  negb (truthy embedding) || negb (isArray embedding) = true.
Proof. intros ->. apply orb_true_r. Qed.



(** X4. The embedding step of the search adapter, both bindings in place.
    A failure of the embedding provider leaves the adapter as it is; an
    answer whose [data[0]] is not an array is refused with the
    "Could not extract embedding" error; in both cases the index is not
    queried. When [data[0]] is an array, the empty one included, the index
    is queried with exactly that array. *)
Theorem searchVectors_embedding_step (env : Env) index ai (query topK : value) :
  VECTOR_INDEX env = Some index -> AI env = Some ai ->
  let inputs := VObj [("text", VArr [query])] in
  (forall e, AI_run ai embedding_model inputs = Throw e ->
     searchVectors env query topK = ([AI_run_call embedding_model inputs], Throw e)) /\
  (forall response, AI_run ai embedding_model inputs = Return response ->
     isArray (opt_index0 (prop response "data")) = false ->
     searchVectors env query topK =
       ([AI_run_call embedding_model inputs], Throw (mkError no_embedding_message))) /\
  (forall response embedding, AI_run ai embedding_model inputs = Return response ->
     opt_index0 (prop response "data") = VArr embedding ->
     fst (searchVectors env query topK) =
       [AI_run_call embedding_model inputs;
        VECTOR_INDEX_query_call (VArr embedding) (VObj [("topK", topK)])]).
Proof.
  intros Hindex Hai inputs. split; [|split].
  - intros e Hrun. unfold embedding_model, inputs in *.
    unfold searchVectors. rewrite Hindex, Hai.
    unfold bind at 1, call at 1. rewrite Hrun. reflexivity.
  - intros response Hrun Hnot. unfold embedding_model, inputs in *.
    unfold searchVectors. rewrite Hindex, Hai.
    unfold bind at 1, call at 1. rewrite Hrun, opt_prop_prop.
    rewrite (not_array_no_embedding _ Hnot). reflexivity.
  - intros response embedding Hrun Hemb.
    exact (searchVectors_queries_index env index ai query topK response embedding
             Hindex Hai Hrun Hemb).
Qed.

Lemma searchVectors_embedding_step_witness :
  searchVectors
    {| R2 := None; VECTOR_INDEX := Some example_index;
       AI := Some {| AI_run := fun _ _ => Return (VObj [("data", VArr [])]) |} |}
    (VStr "q") (int 5) =
    ([AI_run_call embedding_model (VObj [("text", VArr [VStr "q"])])],
     Throw (mkError no_embedding_message)).
Proof.
  destruct (searchVectors_embedding_step
              {| R2 := None; VECTOR_INDEX := Some example_index;
                 AI := Some {| AI_run := fun _ _ => Return (VObj [("data", VArr [])]) |} |}
              example_index
              {| AI_run := fun _ _ => Return (VObj [("data", VArr [])]) |}
              (VStr "q") (int 5) eq_refl eq_refl) as (_ & Hrefused & _).
  apply (Hrefused (VObj [("data", VArr [])])); reflexivity.
Defined.

Lemma search_vectors_text_calls reply missing (query topK : value) (env : Env) :
  truthy query = true ->
  fst (answer reply (search_vectors_text missing query topK env)) =
    fst (searchVectors env query (coalesce topK (int 5))).
Proof.
  intros Hq. unfold search_vectors_text. rewrite Hq.
  destruct (searchVectors env query _) as [calls [matches|e]]; reflexivity.
Qed.

(** X5. The [topK] the index is queried with. When [search_vectors] reaches
    the index, it passes the caller's [topK] unchanged, zero and non-numbers
    included, and 5 only when [topK] is omitted or null; on the MCP path and
    on the legacy path alike. *)
Theorem search_vectors_topK (body : value) (env : Env) index ai
        (query topK response : value) embedding :
  VECTOR_INDEX env = Some index -> AI env = Some ai ->
  truthy query = true ->
  AI_run ai embedding_model (VObj [("text", VArr [query])]) = Return response ->
  opt_index0 (prop response "data") = VArr embedding ->
  let queried k :=
    fst (fetch (POST body) env) =
      [AI_run_call embedding_model (VObj [("text", VArr [query])]);
       VECTOR_INDEX_query_call (VArr embedding) (VObj [("topK", k)])] in
  (is_jsonrpc body = true -> prop body "method" = VStr "tools/call" ->
   tool_name body = VStr "search_vectors" ->
   tool_argument body "query" = query -> tool_argument body "topK" = topK ->
   (nullish topK = true -> queried (int 5)) /\
   (nullish topK = false -> queried topK)) /\
  (is_jsonrpc body = false -> prop body "method" = VStr "search_vectors" ->
   legacy_argument body "query" = query -> legacy_argument body "topK" = topK ->
   (nullish topK = true -> queried (int 5)) /\
   (nullish topK = false -> queried topK)).
Proof.
  intros Hindex Hai Hq Hrun Hemb queried.
  assert (Hcalls : forall reply missing,
            (nullish topK = true ->
             fst (answer reply (search_vectors_text missing query topK env)) =
               search_calls query (int 5) (VArr embedding)) /\
            (nullish topK = false ->
             fst (answer reply (search_vectors_text missing query topK env)) =
               search_calls query topK (VArr embedding))).
  { intros reply missing. rewrite (search_vectors_text_calls _ _ _ _ _ Hq).
    unfold coalesce. split; intros ->;
      apply (searchVectors_queries_index env index ai query _ response embedding);
      assumption. }
  unfold queried. split.
  - intros Hrpc Hm Hn Haq Hak.
    rewrite (fetch_tools_call body env "search_vectors" Hrpc Hm Hn eq_refl).
    unfold tool_text. cbn [String.eqb Ascii.eqb Bool.eqb]. rewrite Haq, Hak.
    apply Hcalls.
  - intros Hrpc Hm Haq Hak.
    rewrite (fetch_legacy_call body env "search_vectors" Hrpc Hm eq_refl).
    unfold tool_text. cbn [String.eqb Ascii.eqb Bool.eqb]. rewrite Haq, Hak.
    apply Hcalls.
Qed.

Lemma search_vectors_topK_witness :
  fst (fetch (tools_call (int 1) (VStr "search_vectors")
                (VObj [("query", VStr "q"); ("topK", int 0)])) example_env) =
    [AI_run_call embedding_model (VObj [("text", VArr [VStr "q"])]);
     VECTOR_INDEX_query_call (VArr [VNum (Dec 1 (-1)); VNum (Dec 2 (-1))])
                             (VObj [("topK", int 0)])] /\
  fst (fetch (legacy_call (VStr "search_vectors") (VObj [("query", VStr "q")]))
             example_env) =
    [AI_run_call embedding_model (VObj [("text", VArr [VStr "q"])]);
     VECTOR_INDEX_query_call (VArr [VNum (Dec 1 (-1)); VNum (Dec 2 (-1))])
                             (VObj [("topK", int 5)])].
Proof.
  split.
  - destruct (search_vectors_topK
                (VObj [("jsonrpc", VStr "2.0"); ("id", int 1);
                       ("method", VStr "tools/call");
                       ("params", VObj [("name", VStr "search_vectors");
                                        ("arguments", VObj [("query", VStr "q");
                                                            ("topK", int 0)])])])
                example_env example_index example_ai (VStr "q") (int 0)
                (VObj [("data", VArr [VArr [VNum (Dec 1 (-1)); VNum (Dec 2 (-1))]])])
                [VNum (Dec 1 (-1)); VNum (Dec 2 (-1))]
                eq_refl eq_refl eq_refl eq_refl eq_refl) as (Hmcp & _).
    destruct (Hmcp eq_refl eq_refl eq_refl eq_refl eq_refl) as (_ & Hgiven).
    apply Hgiven. reflexivity.
  - destruct (search_vectors_topK
                (VObj [("method", VStr "search_vectors");
                       ("params", VObj [("query", VStr "q")])])
                example_env example_index example_ai (VStr "q") VUndefined
                (VObj [("data", VArr [VArr [VNum (Dec 1 (-1)); VNum (Dec 2 (-1))]])])
                [VNum (Dec 1 (-1)); VNum (Dec 2 (-1))]
                eq_refl eq_refl eq_refl eq_refl eq_refl) as (_ & Hlegacy).
    destruct (Hlegacy eq_refl eq_refl eq_refl eq_refl) as (Hdefault & _).
    apply Hdefault. reflexivity.
Defined.

(** X6. What the search adapter returns once the index has answered. It
    returns a list exactly when the answer is not null or undefined, the
    chosen match list ([matches], else [results], else the empty list) is an
    array, and no entry of it is null or undefined; the list then holds one
    record per match, in order. Otherwise it throws: one null entry fails the
    whole search. *)
Theorem searchVectors_returns_iff (env : Env) index ai
        (query topK response vectorResult : value) embedding :
  VECTOR_INDEX env = Some index -> AI env = Some ai ->
  AI_run ai embedding_model (VObj [("text", VArr [query])]) = Return response ->
  opt_index0 (prop response "data") = VArr embedding ->
  VECTOR_INDEX_query index (VArr embedding) (VObj [("topK", topK)])
    = Return vectorResult ->
  ((exists v, snd (searchVectors env query topK) = Return v) <->
   (nullish vectorResult = false /\
    exists ms, chosen_matches vectorResult = VArr ms /\
               Forall (fun m => nullish m = false) ms)) /\
  (forall v, snd (searchVectors env query topK) = Return v ->
   exists ms, chosen_matches vectorResult = VArr ms /\
              v = VArr (map Match_Record ms)).
Proof.
  intros Hindex Hai Hrun Hemb Hquery.
  assert (Hforward : forall v, snd (searchVectors env query topK) = Return v ->
            nullish vectorResult = false /\
            exists ms, chosen_matches vectorResult = VArr ms /\
                       Forall (fun m => nullish m = false) ms).
  { intros v. unfold embedding_model in Hrun.
    unfold searchVectors. rewrite Hindex, Hai.
    unfold bind at 1, call at 1. rewrite Hrun, opt_prop_prop, Hemb.
    cbn [truthy isArray negb orb].
    unfold bind at 1, call at 1. rewrite Hquery.
    unfold member. destruct (nullish vectorResult); [discriminate|].
    cbn [bind ret app]. fold (chosen_matches vectorResult).
    destruct (chosen_matches vectorResult) as [| |b|n|s|ms|ps]; try discriminate.
    destruct (mapM match_record ms) as [calls [records|e]] eqn:E; [|discriminate].
    intros _. split; [reflexivity|]. exists ms. split; [reflexivity|].
    exact (mapM_match_record_return ms calls records E). }
  assert (Hbackward : forall ms, nullish vectorResult = false ->
            chosen_matches vectorResult = VArr ms ->
            Forall (fun m => nullish m = false) ms ->
            snd (searchVectors env query topK) = Return (VArr (map Match_Record ms))).
  { intros ms Hvr Hms Hall.
    rewrite (searchVectors_reaches_index env index ai query topK response embedding
               vectorResult Hindex Hai Hrun Hemb Hquery Hvr ms Hms Hall).
    reflexivity. }
  split.
  - split.
    + intros [v Hv]. exact (Hforward v Hv).
    + intros (Hvr & ms & Hms & Hall). eexists. exact (Hbackward ms Hvr Hms Hall).
  - intros v Hv. destruct (Hforward v Hv) as (Hvr & ms & Hms & Hall).
    exists ms. split; [exact Hms|].
    rewrite (Hbackward ms Hvr Hms Hall) in Hv. injection Hv as <-. reflexivity.
Qed.

Lemma searchVectors_returns_iff_witness :
  ~ (exists v,
       snd (searchVectors
              {| R2 := None;
                 VECTOR_INDEX := Some {| VECTOR_INDEX_query := fun _ _ =>
                                   Return (VObj [("matches", VArr [example_match; VNull])]) |};
                 AI := Some example_ai |}
              (VStr "q") (int 5)) = Return v).
Proof.
  destruct (searchVectors_returns_iff
              {| R2 := None;
                 VECTOR_INDEX := Some {| VECTOR_INDEX_query := fun _ _ =>
                                   Return (VObj [("matches", VArr [example_match; VNull])]) |};
                 AI := Some example_ai |}
              _ example_ai (VStr "q") (int 5) _ _ [VNum (Dec 1 (-1)); VNum (Dec 2 (-1))]
              eq_refl eq_refl eq_refl eq_refl eq_refl) as ((Honly_if & _) & _).
  intros H. destruct (Honly_if H) as (_ & ms & Hms & Hall).
  cbv in Hms. injection Hms as <-.
  inversion Hall as [|m ms' _ Htail]; subst. inversion Htail as [|m' ms'' Hnull _]; subst.
  discriminate Hnull.
Defined.

(** With both bindings in place the adapter stops after the embedding call
    or goes on to query the index. *)
Lemma searchVectors_embedding_cases (env : Env) index ai (query topK : value) :
  VECTOR_INDEX env = Some index -> AI env = Some ai ->
  fst (searchVectors env query topK) =
    [AI_run_call embedding_model (VObj [("text", VArr [query])])] \/
  (exists embedding,
     fst (searchVectors env query topK) = search_calls query topK (VArr embedding)).
Proof.
  intros Hindex Hai.
  destruct (AI_run ai embedding_model (VObj [("text", VArr [query])]))
    as [response|e] eqn:Hrun.
  - destruct (isArray (opt_index0 (prop response "data"))) eqn:Harr.
    + destruct (opt_index0 (prop response "data")) as [| |b|n|s0|embedding|ps] eqn:Hemb;
        try discriminate Harr.
      right. exists embedding.
      exact (searchVectors_queries_index env index ai query topK response embedding
               Hindex Hai Hrun Hemb).
    + left. unfold embedding_model in Hrun. unfold searchVectors.
      rewrite Hindex, Hai. unfold bind at 1, call at 1. rewrite Hrun, opt_prop_prop.
      rewrite (not_array_no_embedding _ Harr). reflexivity.
  - left. unfold embedding_model in Hrun. unfold searchVectors.
    rewrite Hindex, Hai. unfold bind at 1, call at 1. rewrite Hrun. reflexivity.
Qed.

(* ===================================================================== *)
(** ** The dispatcher as a whole *)
(* ===================================================================== *)

(** The four ways a request is classified. *)
Lemma fetch_cases (request : Request) (env : Env) :
  (method request = "GET" /\ fetch request env = ([], health_check)) \/
  (method request <> "GET" /\ method request <> "POST" /\
   fetch request env =
     ([], jsonRpcError VNull (-32600) "Invalid request method (POST required)" 200)) \/
  (method request = "POST" /\ (exists e, json request = Throw e) /\
   fetch request env =
     ([], jsonRpcError VNull (-32700) "Parse error: invalid JSON" 200)) \/
  (exists body, request = POST body).
Proof.
  destruct (String.eqb_spec (method request) "GET") as [Hget|Hget].
  - left. split; [exact Hget|]. apply fetch_of_return. unfold fetch_try.
    rewrite Hget. reflexivity.
  - destruct (String.eqb_spec (method request) "POST") as [Hpost|Hpost].
    + destruct (json request) as [body|e] eqn:Hjson.
      * right; right; right. exists body.
        rewrite (request_eta request), Hpost, Hjson. reflexivity.
      * right; right; left. split; [exact Hpost|]. split; [exists e; reflexivity|].
        apply fetch_of_return. unfold fetch_try. rewrite Hpost, Hjson. reflexivity.
    + right; left. split; [exact Hget|]. split; [exact Hpost|].
      apply fetch_of_return. unfold fetch_try.
      destruct (String.eqb_spec (method request) "GET"); [contradiction|].
      destruct (String.eqb_spec (method request) "POST"); [contradiction|].
      reflexivity.
Qed.

(** The answers of the MCP handler. *)
Lemma jsonrpc_cases (body : value) (env : Env) :
  is_jsonrpc body = true ->
  let id := prop body "id" in
  (exists result, fetch (POST body) env = ([], jsonRpcResult id result 200)) \/
  fetch (POST body) env =
    ([], jsonRpcError id (-32602) "Missing tool name in params.name" 200) \/
  (exists msg, fetch (POST body) env = ([], jsonRpcError id (-32601) msg 200)) \/
  (exists tool,
     fetch (POST body) env =
       answer (mcp_reply id) (tool_text true tool (tool_argument body) env)) \/
  (exists msg, fetch (POST body) env = ([], jsonRpcError VNull (-32603) msg 200)).
Proof.
  intros Hrpc id.
  destruct (is_string (prop body "method") "tools/call") eqn:Hcall.
  - apply is_string_true in Hcall.
    destruct (truthy (tool_name body)) eqn:Hname.
    + destruct (known_tool (tool_name body)) eqn:Hknown.
      * destruct (known_tool_cases _ Hknown) as [tool Htool]. rewrite Htool in Hknown.
        right; right; right; left. exists tool.
        exact (fetch_tools_call body env tool Hrpc Hcall Htool Hknown).
      * destruct (ToString (tool_name body)) as [shown|] eqn:Hs.
        -- right; right; left. eexists.
           exact (unknown_tool body env shown Hrpc Hcall Hname Hknown Hs).
        -- right; right; right; right. eexists.
           exact (unknown_tool_unprintable body env Hrpc Hcall Hname Hknown Hs).
    + right; left. exact (missing_tool_name body env Hrpc Hcall Hname).
  - destruct (is_string (prop body "method") "initialize") eqn:Hinit.
    + left. eexists. apply fetch_initialize; [exact Hrpc|].
      apply is_string_true; exact Hinit.
    + destruct (is_string (prop body "method") "tools/list") eqn:Hlist.
      * left. eexists. apply fetch_tools_list; [exact Hrpc|].
        apply is_string_true; exact Hlist.
      * assert (Hknown : known_method (prop body "method") = false).
        { unfold known_method. rewrite Hinit, Hlist, Hcall. reflexivity. }
        destruct (ToString (prop body "method")) as [shown|] eqn:Hs.
        -- right; right; left. eexists.
           exact (unknown_method body env shown Hrpc Hknown Hs).
        -- right; right; right; right. eexists.
           exact (unknown_method_unprintable body env Hrpc Hknown Hs).
Qed.

(** The answers of the legacy dispatch. *)
Lemma legacy_cases (body : value) (env : Env) :
  is_jsonrpc body = false ->
  (exists s, fetch (POST body) env = ([], legacyJson (content (VStr s)) 200)) \/
  (exists tool,
     fetch (POST body) env =
       answer legacy_reply (tool_text false tool (legacy_argument body) env)) \/
  (exists msg, fetch (POST body) env = ([], jsonRpcError VNull (-32603) msg 200)).
Proof.
  intros Hrpc. destruct (known_tool (prop body "method")) eqn:Hknown.
  - destruct (known_tool_cases _ Hknown) as [tool Htool]. rewrite Htool in Hknown.
    right; left. exists tool. exact (fetch_legacy_call body env tool Hrpc Htool Hknown).
  - destruct (ToString (prop body "method")) as [shown|] eqn:Hs.
    + left. eexists. exact (legacy_unknown_method body env shown Hrpc Hknown Hs).
    + right; right. eexists.
      exact (legacy_unknown_method_unprintable body env Hrpc Hknown Hs).
Qed.

Lemma fst_answer reply (m : M value) : fst (answer reply m) = fst m.
Proof. destruct m as [calls [t|e]]; reflexivity. Qed.

Lemma searchVectors_call_pattern (env : Env) (query topK : value) :
  call_pattern (fst (searchVectors env query topK)).
Proof.
  destruct (VECTOR_INDEX env) as [index|] eqn:Hindex;
    [|unfold searchVectors; rewrite Hindex; constructor].
  destruct (AI env) as [ai|] eqn:Hai;
    [|unfold searchVectors; rewrite Hindex, Hai; constructor].
  destruct (searchVectors_embedding_cases env index ai query topK Hindex Hai)
    as [H | (embedding & H)]; rewrite H; constructor.
Qed.

Lemma tool_text_call_pattern mcp (tool : string) arg (env : Env) :
  call_pattern (fst (tool_text mcp tool arg env)).
Proof.
  unfold tool_text.
  destruct (String.eqb tool "list_r2_files").
  { unfold list_r2_files_text, R2_list_objects.
    destruct (coalesce (arg "path") (VStr "")); try constructor.
    destruct (R2 env) as [bucket|]; [|constructor].
    cbn. destruct (R2_list bucket _); constructor. }
  destruct (String.eqb tool "read_r2_file").
  { unfold read_r2_file_text, R2_get_object.
    destruct (truthy (arg "path")); [|constructor].
    destruct (R2 env) as [bucket|]; [|constructor].
    cbn. destruct (R2_get bucket _) as [[obj|]|e]; try constructor.
    - destruct (text obj); constructor.
    - destruct (ToString (arg "path")); constructor. }
  unfold search_vectors_text.
  destruct (truthy (arg "query")); [|constructor].
  pose proof (searchVectors_call_pattern env (arg "query")
                (coalesce (arg "topK") (int 5))) as H.
  destruct (searchVectors env _ _) as [calls [matches|e]]; exact H.
Qed.

(** X7. The collaborator calls of one request. Whatever the request and the
    bindings, the dispatcher makes no call, or one listing, or one lookup
    optionally followed by the read of the object, or one embedding call
    optionally followed by one query of the index: at most two calls, never
    storage and search together, and the index is never queried without the
    embedding call before it. *)
Theorem calls_per_request (request : Request) (env : Env) :
  call_pattern (fst (fetch request env)) /\
  (length (fst (fetch request env)) <= 2)%nat /\
  (forall vector options,
     In (VECTOR_INDEX_query_call vector options) (fst (fetch request env)) ->
     exists model inputs,
       fst (fetch request env) =
         [AI_run_call model inputs; VECTOR_INDEX_query_call vector options]).
Proof.
  assert (H : call_pattern (fst (fetch request env))).
  { destruct (fetch_cases request env) as [[_ E]|[(_ & _ & E)|[(_ & _ & E)|[body ->]]]];
      try (rewrite E; constructor).
    destruct (is_jsonrpc body) eqn:Hrpc.
    - destruct (jsonrpc_cases body env Hrpc)
        as [[r E]|[E|[[msg E]|[[tool E]|[msg E]]]]];
        rewrite E; try constructor.
      rewrite fst_answer. apply tool_text_call_pattern.
    - destruct (legacy_cases body env Hrpc) as [[s E]|[[tool E]|[msg E]]];
        rewrite E; try constructor.
      rewrite fst_answer. apply tool_text_call_pattern. }
  split; [exact H|]. split.
  - destruct H; cbn; auto.
  - intros vector options Hin. destruct H; cbn in Hin;
      repeat match goal with
             | H' : _ \/ _ |- _ => destruct H' as [H'|H']
             | H' : False |- _ => contradiction
             | H' : _ = VECTOR_INDEX_query_call _ _ |- _ => try discriminate H'
             end.
    injection Hin as -> ->. do 2 eexists. reflexivity.
Qed.





Lemma prop_of_non_object (body : value) (k : string) :
  (forall props, body <> VObj props) -> prop body k = VUndefined.
Proof.
  intros H. destruct body; try reflexivity. exfalso. exact (H props eq_refl).
Qed.

(** X9. A legacy body whose method is none of the three tools is answered,
    at HTTP status 200 and without a collaborator call, with the text
    "Unknown method: <method>" in a legacy content envelope, not with an
    error; the method is shown in its string form, which every string has. A
    body that parses but is no object (null, a boolean, a number, a string,
    an array) is such a body: its text is "Unknown method: undefined". *)
Theorem legacy_unknown_method_is_content (body : value) (env : Env) :
  (forall shown,
     is_jsonrpc body = false -> known_tool (prop body "method") = false ->
     ToString (prop body "method") = Some shown ->
     fst (fetch (POST body) env) = [] /\
     carries (snd (fetch (POST body) env))
             (LegacyContent ("Unknown method: " ++ shown))) /\
  ((forall props, body <> VObj props) ->
   fst (fetch (POST body) env) = [] /\
   carries (snd (fetch (POST body) env)) (LegacyContent "Unknown method: undefined")).
Proof.
  split.
  - intros shown Hrpc Hk Hs.
    apply (fetch_carries _ _ _ _ _ (legacy_unknown_method body env shown Hrpc Hk Hs)).
    apply carries_legacy_content.
  - intros Hbody.
    assert (Hrpc : is_jsonrpc body = false).
    { unfold is_jsonrpc. rewrite (prop_of_non_object body _ Hbody). apply andb_false_r. }
    assert (Hk : known_tool (prop body "method") = false).
    { rewrite (prop_of_non_object body _ Hbody). reflexivity. }
    assert (Hs : ToString (prop body "method") = Some "undefined").
    { rewrite (prop_of_non_object body _ Hbody). reflexivity. }
    apply (fetch_carries _ _ _ _ _
             (legacy_unknown_method body env "undefined" Hrpc Hk Hs)).
    apply carries_legacy_content.
Qed.

Lemma legacy_unknown_method_is_content_witness :
  carries (snd (fetch (POST (VObj [("jsonrpc", VStr "1.0"); ("id", int 1);
                                   ("method", VStr "tools/list")])) example_env))
          (LegacyContent "Unknown method: tools/list") /\
  carries (snd (fetch (POST (VArr [VStr "list_r2_files"])) example_env))
          (LegacyContent "Unknown method: undefined").
Proof.
  split.
  - destruct (legacy_unknown_method_is_content
                (VObj [("jsonrpc", VStr "1.0"); ("id", int 1);
                       ("method", VStr "tools/list")]) example_env) as (H & _).
    apply (H "tools/list"); reflexivity.
  - destruct (legacy_unknown_method_is_content
                (VArr [VStr "list_r2_files"]) example_env) as (_ & H).
    apply H. intros props. discriminate.
Defined.

Ltac close_code_goal :=
  cbn; repeat split;
  try (intros [H'|H']; (discriminate H' || (destruct H' as [H'|H']; discriminate H')));
  try (intros [H'|[H'|H']]; discriminate H');
  try reflexivity; auto 10.

(** X10. The error codes and the id of an error. A JSON-RPC error answered
    by the dispatcher carries one of the codes -32600, -32700, -32601,
    -32602, -32603. With -32600, -32700 and -32603 the id is null, also when
    the request had an id; with -32601 and -32602 the request was a JSON-RPC
    body and the id is the request's. *)
Theorem error_codes_and_ids (request : Request) (env : Env)
        (id : value) (code : Z) (msg : string) :
  body (snd (fetch request env)) = BodyJSON (encode (JsonRpcError id code msg)) ->
  In code error_codes /\
  (code = -32600 \/ code = -32700 \/ code = -32603 -> id = VNull) /\
  (code = -32601 \/ code = -32602 ->
   exists b, request = POST b /\ is_jsonrpc b = true /\ id = prop b "id").
Proof.
  intros H.
  destruct (fetch_cases request env) as [[_ E]|[(_ & _ & E)|[(_ & _ & E)|[b ->]]]].
  - rewrite E in H. discriminate H.
  - rewrite E in H. cbn in H. injection H as <- <- <-. close_code_goal.
  - rewrite E in H. cbn in H. injection H as <- <- <-. close_code_goal.
  - destruct (is_jsonrpc b) eqn:Hrpc.
    + destruct (jsonrpc_cases b env Hrpc)
        as [[r E]|[E|[[m E]|[[tool E]|[m E]]]]]; rewrite E in H.
      * discriminate H.
      * cbn in H. injection H as <- <- <-.
        split; [cbn; auto 10|]. split; [intros [H'|[H'|H']]; discriminate H'|].
        intros _. exists b. repeat split; assumption.
      * cbn in H. injection H as <- <- <-.
        split; [cbn; auto 10|]. split; [intros [H'|[H'|H']]; discriminate H'|].
        intros _. exists b. repeat split; assumption.
      * destruct (tool_text true tool (tool_argument b) env) as [calls [t|e]];
          cbn in H; [discriminate H|].
        injection H as <- <- <-. close_code_goal.
      * cbn in H. injection H as <- <- <-. close_code_goal.
    + destruct (legacy_cases b env Hrpc) as [[s E]|[[tool E]|[m E]]]; rewrite E in H.
      * discriminate H.
      * destruct (tool_text false tool (legacy_argument b) env) as [calls [t|e]];
          cbn in H; [discriminate H|].
        injection H as <- <- <-. close_code_goal.
      * cbn in H. injection H as <- <- <-. close_code_goal.
Qed.

Lemma error_codes_and_ids_witness :
  In (-32603) error_codes /\
  (-32603 = -32600 \/ -32603 = -32700 \/ -32603 = -32603 -> VNull = VNull) /\
  (-32603 = -32601 \/ -32603 = -32602 ->
   exists b,
     tools_call (int 7) (VStr "list_r2_files") (VObj [("path", VStr "logs")]) = POST b /\
     is_jsonrpc b = true /\ VNull = prop b "id").
Proof.
  apply (error_codes_and_ids
           (tools_call (int 7) (VStr "list_r2_files") (VObj [("path", VStr "logs")]))
           failing_env VNull (-32603) "Internal error: R2 unavailable").
  reflexivity.
Defined.

(* ===================================================================== *)
(** ** More on list_r2_files *)
(* ===================================================================== *)







Lemma normalize_prefix_root (p : string) :
  normalize_prefix p = "" <-> p = "" \/ p = "/".
Proof.
  unfold normalize_prefix.
  destruct (String.eqb_spec p "") as [->|Hne]; cbn [orb]; [intuition|].
  destruct (String.eqb_spec p "/") as [->|Hns]; [intuition|].
  destruct (endsWith p "/").
  - intuition.
  - split; [|intuition]. destruct p; cbn; intros H; discriminate H.
Qed.

Lemma normalize_prefix_not_slash (p : string) : normalize_prefix p <> "/".
Proof.
  unfold normalize_prefix.
  destruct (String.eqb_spec p "") as [->|Hne]; cbn [orb]; [discriminate|].
  destruct (String.eqb_spec p "/") as [->|Hns]; [discriminate|].
  destruct (endsWith p "/"); [exact Hns|].
  destruct p as [|c [|c' p']]; cbn; try discriminate. contradiction.
Qed.

Lemma normalize_prefix_extends (p : string) :
  p <> "/" -> normalize_prefix p = p \/ normalize_prefix p = p ++ "/".
Proof.
  intros Hns. unfold normalize_prefix.
  destruct (String.eqb_spec p "") as [->|Hne]; cbn [orb]; [left; reflexivity|].
  destruct (String.eqb_spec p "/") as [->|_]; [contradiction|].
  destruct (endsWith p "/"); [left|right]; reflexivity.
Qed.

(** X13. The prefix [q] that [list_r2_files] asks storage for, for a string
    path [p], on either path: it is the empty prefix exactly when [p] is ""
    or "/" (so "//" does not list the root); it is never "/"; it is empty or
    ends in "/"; and unless [p] is "/" it is [p] itself or [p] followed by
    "/". *)
Theorem list_r2_files_prefix_shape (body : value) (env : Env) (bucket : R2Bucket)
        (p : string) :
  R2 env = Some bucket ->
  (is_jsonrpc body = true /\ prop body "method" = VStr "tools/call" /\
   tool_name body = VStr "list_r2_files" /\ tool_argument body "path" = VStr p) \/
  (is_jsonrpc body = false /\ prop body "method" = VStr "list_r2_files" /\
   legacy_argument body "path" = VStr p) ->
  exists q,
    fst (fetch (POST body) env) = [R2_list_call q] /\
    (q = "" <-> p = "" \/ p = "/") /\
    q <> "/" /\
    (q = "" \/ endsWith q "/" = true) /\
    (p <> "/" -> q = p \/ q = p ++ "/").
Proof.
  intros HR2 Hcall. exists (normalize_prefix p). split.
  - destruct Hcall as [(Hrpc & Hm & Hn & Ha) | (Hrpc & Hm & Ha)].
    + rewrite (fetch_tools_call body env "list_r2_files" Hrpc Hm Hn eq_refl).
      unfold tool_text. cbn [String.eqb Ascii.eqb Bool.eqb]. rewrite Ha.
      apply (list_r2_files_text_calls _ p env bucket _ HR2). reflexivity.
    + rewrite (fetch_legacy_call body env "list_r2_files" Hrpc Hm eq_refl).
      unfold tool_text. cbn [String.eqb Ascii.eqb Bool.eqb]. rewrite Ha.
      apply (list_r2_files_text_calls _ p env bucket _ HR2). reflexivity.
  - split; [apply normalize_prefix_root|].
    split; [apply normalize_prefix_not_slash|].
    split; [apply normalize_prefix_fixed | apply normalize_prefix_extends].
Qed.

Lemma list_r2_files_prefix_shape_witness :
  exists q,
    fst (fetch (legacy_call (VStr "list_r2_files") (VObj [("path", VStr "//")]))
               example_env) = [R2_list_call q] /\
    (q = "" <-> "//" = "" \/ "//" = "/") /\
    q <> "/" /\
    (q = "" \/ endsWith q "/" = true) /\
    ("//" <> "/" -> q = "//" \/ q = "//" ++ "/").
Proof.
  apply (list_r2_files_prefix_shape
           (VObj [("method", VStr "list_r2_files");
                  ("params", VObj [("path", VStr "//")])])
           example_env logs_bucket "//" eq_refl).
  right. repeat split.
Defined.

(* ===================================================================== *)
(** ** The storage binding and the wire *)
(* ===================================================================== *)



Lemma body_text_json (v : value) (st : Z) hs :
  body_text (mkResponse (BodyJSON v) st hs) = JSON_text v.
Proof. reflexivity. Qed.

(** X15. The id on the wire. When the request has no [id], the JSON-RPC
    result and the JSON-RPC error are written without an [id] member (the
    text is that of the object without it), whereas a null id is written; so
    a request without id is still answered, by a response without id. *)
Theorem absent_id_is_not_written (result : value) (code : Z) (msg : string) :
  body_text (jsonRpcResult VUndefined result 200) =
    JSON_text (VObj [("jsonrpc", VStr "2.0"); ("result", result)]) /\
  body_text (jsonRpcError VUndefined code msg 200) =
    JSON_text (VObj [("jsonrpc", VStr "2.0");
                     ("error", VObj [("code", int code); ("message", VStr msg)])]) /\
  body_text (jsonRpcResult VNull result 200) <>
    body_text (jsonRpcResult VUndefined result 200) /\
  (forall body env,
     is_jsonrpc body = true -> prop body "method" = VStr "initialize" ->
     prop body "id" = VUndefined ->
     body_text (snd (fetch (POST body) env)) =
       JSON_text (VObj [("jsonrpc", VStr "2.0"); ("result", initialize_result)])).
Proof.
  assert (Hresult : forall r,
            body_text (jsonRpcResult VUndefined r 200) =
              JSON_text (VObj [("jsonrpc", VStr "2.0"); ("result", r)])).
  { intros r. unfold jsonRpcResult. rewrite body_text_json.
    unfold JSON_text, JSON_stringify. cbn. reflexivity. }
  split; [apply Hresult|]. split; [|split].
  - unfold jsonRpcError. rewrite body_text_json.
    unfold JSON_text, JSON_stringify. cbn. reflexivity.
  - unfold jsonRpcResult. rewrite !body_text_json.
    unfold JSON_text, JSON_stringify. cbn.
    destruct (SerializeJSONProperty "" "" result); cbn; intros H; discriminate H.
  - intros body env Hrpc Hm Hid.
    rewrite (fetch_initialize body env Hrpc Hm), Hid. apply Hresult.
Qed.

Lemma absent_id_is_not_written_witness :
  body_text (snd (fetch (POST (VObj [("jsonrpc", VStr "2.0");
                                     ("method", VStr "initialize")])) no_bindings)) =
    JSON_text (VObj [("jsonrpc", VStr "2.0"); ("result", initialize_result)]).
Proof.
  destruct (absent_id_is_not_written VNull 0 EmptyString) as (_ & _ & _ & H).
  apply H; reflexivity.
Defined.

(* ===================================================================== *)
(** ** Each tool and its collaborators *)
(* ===================================================================== *)

Lemma searchVectors_own_calls (env : Env) (query topK : value) :
  fst (searchVectors env query topK) = [] \/
  fst (searchVectors env query topK) =
    [AI_run_call embedding_model (VObj [("text", VArr [query])])] \/
  (exists embedding,
     fst (searchVectors env query topK) = search_calls query topK (VArr embedding)).
Proof.
  destruct (VECTOR_INDEX env) as [index|] eqn:Hindex;
    [|left; unfold searchVectors; rewrite Hindex; reflexivity].
  destruct (AI env) as [ai|] eqn:Hai;
    [|left; unfold searchVectors; rewrite Hindex, Hai; reflexivity].
  right. exact (searchVectors_embedding_cases env index ai query topK Hindex Hai).
Qed.

(** X16. Each tool touches its own collaborator only, on either path.
    [list_r2_files] makes no call or one listing; [read_r2_file] makes no
    call, or the lookup of exactly the given path, or that lookup and the
    read of the object; [search_vectors] makes no call, or the embedding call
    for exactly the given query, or that call and one query of the index.
    So a storage tool never reaches the embedding provider or the index, and
    the search tool never reaches storage. *)
Theorem tools_call_their_own_collaborators (body : value) (env : Env) (v : value) :
  (calls_tool body "list_r2_files" "path" v ->
   fst (fetch (POST body) env) = [] \/
   exists prefix, fst (fetch (POST body) env) = [R2_list_call prefix]) /\
  (calls_tool body "read_r2_file" "path" v ->
   fst (fetch (POST body) env) = [] \/
   fst (fetch (POST body) env) = [R2_get_call v] \/
   fst (fetch (POST body) env) = [R2_get_call v; Object_text_call]) /\
  (calls_tool body "search_vectors" "query" v ->
   fst (fetch (POST body) env) = [] \/
   fst (fetch (POST body) env) =
     [AI_run_call embedding_model (VObj [("text", VArr [v])])] \/
   exists embedding topK,
     fst (fetch (POST body) env) =
       [AI_run_call embedding_model (VObj [("text", VArr [v])]);
        VECTOR_INDEX_query_call (VArr embedding) (VObj [("topK", topK)])]).
Proof.
  split; [|split]; intros Hcall;
    destruct (fetch_calls_tool body env _ _ _ Hcall eq_refl)
      as (mcp & reply & read & -> & Hread);
    rewrite fst_answer; unfold tool_text; cbn [String.eqb Ascii.eqb Bool.eqb];
    rewrite ?Hread.
  - unfold list_r2_files_text, R2_list_objects.
    destruct (coalesce v (VStr "")); try (left; reflexivity).
    destruct (R2 env) as [bucket|]; [|left; reflexivity].
    right. eexists. cbn. destruct (R2_list bucket _); reflexivity.
  - unfold read_r2_file_text, R2_get_object.
    destruct (truthy v); [|left; reflexivity].
    destruct (R2 env) as [bucket|]; [|left; reflexivity].
    right. cbn. destruct (R2_get bucket v) as [[obj|]|e];
      try (left; reflexivity).
    + right. destruct (text obj); reflexivity.
    + left. destruct (ToString v); reflexivity.
  - unfold search_vectors_text.
    destruct (truthy v); [|left; reflexivity].
    pose proof (searchVectors_own_calls env v (coalesce (read "topK") (int 5))) as H.
    destruct (searchVectors env v _) as [calls [matches|e]]; cbn in *;
      (destruct H as [H|[H|[embedding H]]];
       [left; exact H | right; left; exact H
       | right; right; exists embedding; eexists; exact H]).
Qed.

Lemma tools_call_their_own_collaborators_witness :
  fst (fetch (legacy_call (VStr "read_r2_file") (VObj [("path", VStr "logs/a.txt")]))
             example_env) = [] \/
  fst (fetch (legacy_call (VStr "read_r2_file") (VObj [("path", VStr "logs/a.txt")]))
             example_env) = [R2_get_call (VStr "logs/a.txt")] \/
  fst (fetch (legacy_call (VStr "read_r2_file") (VObj [("path", VStr "logs/a.txt")]))
             example_env) = [R2_get_call (VStr "logs/a.txt"); Object_text_call].
Proof.
  destruct (tools_call_their_own_collaborators
              (VObj [("method", VStr "read_r2_file");
                     ("params", VObj [("path", VStr "logs/a.txt")])])
              example_env (VStr "logs/a.txt")) as (_ & Hread & _).
  apply Hread. right. repeat split.
Defined.



Lemma calls_per_request_witness :
  exists model inputs,
    fst (fetch (legacy_call (VStr "search_vectors") (VObj [("query", VStr "q")]))
               example_env) =
      [AI_run_call model inputs;
       VECTOR_INDEX_query_call (VArr [VNum (Dec 1 (-1)); VNum (Dec 2 (-1))])
                               (VObj [("topK", int 5)])].
Proof.
  destruct (calls_per_request
              (legacy_call (VStr "search_vectors") (VObj [("query", VStr "q")]))
              example_env) as (_ & _ & Hquery).
  apply Hquery. right. left. reflexivity.
Defined.

(* ===================================================================== *)
(** ** Values without a string form *)
(* ===================================================================== *)

(** X18. A template literal on a value that has no string form. An object
    with an own [toString] member has none (nor has an array that holds
    one), since a member read from JSON is no function. When such a value is
    the unknown tool name, the unknown method (on either path), or the path
    of a [read_r2_file] whose key storage does not hold, the message cannot
    be built: the TypeError reaches the catch-all and the answer is the
    JSON-RPC error -32603 with id null, after the storage lookup in the last
    case. An object without that member is shown as "[object Object]". *)
Theorem values_without_string_form (body : value) (env : Env) :
  let internal_error :=
    JsonRpcError VNull (-32603) ("Internal error: " ++ no_string_form) in
  (is_jsonrpc body = true -> prop body "method" = VStr "tools/call" ->
   truthy (tool_name body) = true -> known_tool (tool_name body) = false ->
   ToString (tool_name body) = None ->
   fst (fetch (POST body) env) = [] /\
   carries (snd (fetch (POST body) env)) internal_error) /\
  (is_jsonrpc body = true -> known_method (prop body "method") = false ->
   ToString (prop body "method") = None ->
   fst (fetch (POST body) env) = [] /\
   carries (snd (fetch (POST body) env)) internal_error) /\
  (is_jsonrpc body = false -> known_tool (prop body "method") = false ->
   ToString (prop body "method") = None ->
   fst (fetch (POST body) env) = [] /\
   carries (snd (fetch (POST body) env)) internal_error) /\
  (forall bucket path,
     R2 env = Some bucket -> calls_tool body "read_r2_file" "path" path ->
     truthy path = true -> R2_get bucket path = Return None ->
     ToString path = None ->
     fst (fetch (POST body) env) = [R2_get_call path] /\
     carries (snd (fetch (POST body) env)) internal_error) /\
  (forall props,
     ToString (VObj props) =
       if has_own "toString" props then None else Some "[object Object]") /\
  (forall props elems,
     has_own "toString" props = true ->
     ToString (VArr (VObj props :: elems)) = None).
Proof.
  cbv zeta. repeat match goal with |- _ /\ _ => split end.
  - intros Hrpc Hm Hn Hk Hs.
    apply (fetch_carries _ _ _ _ _
             (unknown_tool_unprintable body env Hrpc Hm Hn Hk Hs)).
    apply carries_jsonRpcError.
  - intros Hrpc Hk Hs.
    apply (fetch_carries _ _ _ _ _ (unknown_method_unprintable body env Hrpc Hk Hs)).
    apply carries_jsonRpcError.
  - intros Hrpc Hk Hs.
    apply (fetch_carries _ _ _ _ _
             (legacy_unknown_method_unprintable body env Hrpc Hk Hs)).
    apply carries_jsonRpcError.
  - intros bucket path HR2 Hcall Hp Hget Hs.
    destruct (fetch_calls_tool body env _ _ _ Hcall eq_refl)
      as (mcp & reply & read & -> & Hread).
    apply (answer_throw_carries _ _ _ (TypeError no_string_form)).
    unfold tool_text. cbn [String.eqb Ascii.eqb Bool.eqb]. rewrite Hread.
    exact (read_r2_file_text_unprintable _ path env bucket HR2 Hp Hget Hs).
  - reflexivity.
  - intros props elems H. cbn. rewrite H. reflexivity.
Qed.

Lemma values_without_string_form_witness :
  (fst (fetch (tools_call (int 1) (VObj [("toString", int 1)]) empty_object)
              example_env) = [] /\
   carries (snd (fetch (tools_call (int 1) (VObj [("toString", int 1)]) empty_object)
                       example_env))
           (JsonRpcError VNull (-32603)
              "Internal error: Cannot convert object to primitive value")) /\
  (fst (fetch (legacy_call (VStr "read_r2_file")
                 (VObj [("path", VObj [("toString", int 1)])])) example_env)
     = [R2_get_call (VObj [("toString", int 1)])] /\
   carries (snd (fetch (legacy_call (VStr "read_r2_file")
                          (VObj [("path", VObj [("toString", int 1)])])) example_env))
           (JsonRpcError VNull (-32603)
              "Internal error: Cannot convert object to primitive value")).
Proof.
  split.
  - destruct (values_without_string_form
                (VObj [("jsonrpc", VStr "2.0"); ("id", int 1);
                       ("method", VStr "tools/call");
                       ("params", VObj [("name", VObj [("toString", int 1)]);
                                        ("arguments", empty_object)])])
                example_env) as (Hname & _).
    apply Hname; reflexivity.
  - destruct (values_without_string_form
                (VObj [("method", VStr "read_r2_file");
                       ("params", VObj [("path", VObj [("toString", int 1)])])])
                example_env) as (_ & _ & _ & Hpath & _).
    apply (Hpath logs_bucket (VObj [("toString", int 1)])); try reflexivity.
    right. repeat split.
Defined.
